(** * Peripheral proxies of [subapis/peripheral.py]

    A shallow embedding of the proxy layer: the remote call primitive
    [BasePeripheral._method], the kind registry [TYPE_MAP] with
    [registerType] and [wrap], the forwarding composition
    [CCWiredModem.wrapRemote] and the generator [ModemMixin.receive].

    Python values are an inductive type, exceptions are an error result,
    and every function that talks to the remote host or touches module
    state is a function from a [World] to a result and a new [World].
    The world keeps the list of requests sent so far, so that the number
    and the shape of remote calls can be stated. *)

From Stdlib Require Import ZArith Bool Lia.
From stdpp Require Import base gmap strings list.

Open Scope Z_scope.
Open Scope string_scope.
Open Scope list_scope.

(** ** Values and exceptions *)

(** The Python values that travel as parameters, results and event
    components: [None], booleans, integers, [bytes] and [str]. *)
Inductive value : Type :=
  | VNone
  | VBool (b : bool)
  | VInt (z : Z)
  | VBytes (s : string)
  | VStr (s : string).

(** Python's [==] on these values: [bool] is a subclass of [int]
    ([True == 1]), [bytes] and [str] never compare equal. *)
Definition as_int (v : value) : option Z :=
  match v with
  | VBool b => Some (if b then 1 else 0)
  | VInt z => Some z
  | _ => None
  end.

Definition py_eq (a b : value) : bool :=
  match a, b with
  | VNone, VNone => true
  | VBytes s, VBytes t => String.eqb s t
  | VStr s, VStr t => String.eqb s t
  | _, _ =>
      match as_int a, as_int b with
      | Some x, Some y => Z.eqb x y
      | _, _ => false
      end
  end.

Definition py_ne (a b : value) : bool := negb (py_eq a b).

Inductive Exn : Type :=
  | TransportError (msg : string)   (* the remote round trip failed *)
  | DecodeShapeError              (* a take_* extraction did not fit *)
  | KeyError (key : string)       (* TYPE_MAP[ptype] with no entry *)
  | IndexError                    (* tuple index out of range *)
  | TypeError                     (* wrong number of constructor arguments *)
  | PyException (msg : string)    (* raise Exception(msg) *)
  | StopIteration                 (* next() on an exhausted generator *)
  | RuntimeError (msg : string)   (* StopIteration escaping a generator body *)
  | Foreign (tag : string).       (* raised by the environment or the consumer *)

Inductive Result (A : Type) : Type :=
  | Ok (a : A)
  | Raise (e : Exn).
Arguments Ok {A} a.
Arguments Raise {A} e.

(** ** Requests, events, classes *)

(** One call of [eval_lua(code, *params)]. *)
Record Request : Type := mkRequest {
  req_code : string;
  req_params : list value
}.

(** Modelled from the spec: [os.captureEvent] is not among the sources.
    "a process-wide, side-effecting capture of inbound events ... yielding
    raw event tuples".  What its iterator hands over next to the running
    subscription: an event tuple, or an exception raised inside the
    environment.  The end of the list is the end of the iteration. *)
Inductive Feed : Type :=
  | Event (evt : list value)
  | Fault (e : Exn).

(** The peripheral classes of the module; [UserClass] stands for a
    subclass of [BasePeripheral] registered by a third party. *)
Inductive PCls : Type :=
  | CCDrive | CCMonitor | CCComputer | CCTurtle
  | CCWirelessModem | CCWiredModem
  | CCPrinter | CCSpeaker | CCCommandBlock | CCWorkbench | CCInventory
  | CCWebDisplay | CCNBTObserver | CC3dProjector | CCManipulator
  | UserClass (name : string).

(** An instance: its class and the two attributes set by
    [BasePeripheral.__init__]. *)
Record Peripheral : Type := mkPeripheral {
  p_class : PCls;
  _lua_method_expr : string;
  _prepend_params : list value
}.

(** [pcls(lua_method_expr, *prepend_params)] *)
Definition construct (pcls : PCls) (lua_method_expr : string)
    (prepend_params : list value) : Peripheral :=
  mkPeripheral pcls lua_method_expr prepend_params.


(** The message handed to the consumer ([@dataclass ModemMessage]). *)
Record ModemMessage : Type := mkModemMessage {
  reply_channel : value;
  content : value;
  distance : value
}.

(** The call [ModemMessage] with unpacked arguments: the generated [__init__] takes exactly three
    positional arguments and raises [TypeError] otherwise. *)
Definition ModemMessage_init (args : list value) : Result ModemMessage :=
  match args with
  | [r; c; d] => Ok (mkModemMessage r c d)
  | _ => Raise TypeError
  end.

(** ** The external collaborators

    The modules [sess], [ser] and [os] are imported by the file but are not
    part of it.  The remote host is an arbitrary deterministic machine: a
    state space and a function answering one request; the two string
    codecs of [ser] are arbitrary functions. *)
Class Collaborators : Type := {
  Host : Type;
  respond : Request -> Host -> Result value * Host;
  ser_encode : string -> string;
  ser_decode : string -> string
}.

Section Model.
Context {env : Collaborators}.

(** ** The world *)

Record World : Type := mkWorld {
  log : list Request;            (* requests sent so far, oldest first *)
  host : Host;                   (* the remote host *)
  feed : list Feed;              (* what captureEvent will deliver *)
  TYPE_MAP : gmap string PCls    (* the module-level registry *)
}.

Definition set_log (l : list Request) (h : Host) (w : World) : World :=
  mkWorld l h (feed w) (TYPE_MAP w).
Definition set_feed (f : list Feed) (w : World) : World :=
  mkWorld (log w) (host w) f (TYPE_MAP w).
Definition set_TYPE_MAP (t : gmap string PCls) (w : World) : World :=
  mkWorld (log w) (host w) (feed w) t.

(** Code that may raise and may change the world. *)
Definition M (A : Type) : Type := World -> Result A * World.

Definition ret {A} (a : A) : M A := fun w => (Ok a, w).
Definition raise {A} (e : Exn) : M A := fun w => (Raise e, w).
Definition bind {A B} (m : M A) (k : A -> M B) : M B :=
  fun w =>
    match m w with
    | (Ok a, w') => k a w'
    | (Raise e, w') => (Raise e, w')
    end.

Notation "x <~ m ; k" := (bind m (fun x => k))
  (at level 20, m at level 100, k at level 200, only parsing).
Notation "m ;> k" := (bind m (fun _ => k))
  (at level 100, k at level 200, right associativity, only parsing).

(** Modelled from the spec: [sess.eval_lua] is not among the sources.
    "evaluate(sourceExpression, args...) -> RawResult | TransportError",
    with "exactly one remote evaluation round-trip" per call. *)
Definition eval_lua (code : string) (params : list value) : M value :=
  fun w =>
    let rq := mkRequest code params in
    let '(r, h) := respond rq (host w) in
    (r, set_log (log w ++ [rq]) h w).

(** Modelled from the spec: [sess.eval_lua_method_factory] is not among
    the sources; [method = eval_lua_method_factory('peripheral.')] invokes
    the named function of the given Lua table with one remote call. *)
Definition eval_lua_method_factory (obj : string) (name : string)
    (params : list value) : M value :=
  eval_lua ("return " +:+ obj +:+ name +:+ "(...)") params.

Definition method := eval_lua_method_factory "peripheral.".

(** Modelled from the spec: the result decoder is not among the sources.
    "Each extraction fails with a decode error if the underlying value's
    shape does not match." *)
Definition take_bool (rp : value) : M bool :=
  match rp with
  | VBool b => ret b
  | _ => raise DecodeShapeError
  end.

Definition take_none (rp : value) : M unit :=
  match rp with
  | VNone => ret tt
  | _ => raise DecodeShapeError
  end.

Definition take_option_string (rp : value) : M (option string) :=
  match rp with
  | VNone => ret None
  | VBytes s => ret (Some (ser_decode s))
  | _ => raise DecodeShapeError
  end.

Definition take_int (rp : value) : M Z :=
  match rp with
  | VInt z => ret z
  | _ => raise DecodeShapeError
  end.

(** ** BasePeripheral *)

(** [BasePeripheral._method(self, name, *params)] *)
Definition _method (self : Peripheral) (name : string) (params : list value)
    : M value :=
  let code := "return " +:+ _lua_method_expr self +:+ "(...)" in
  eval_lua code (_prepend_params self ++ [VBytes (ser_encode name)] ++ params).

(** ** ModemMixin *)

Definition isOpen (self : Peripheral) (channel : Z) : M bool :=
  rp <~ _method self "isOpen" [VInt channel] ; take_bool rp.

Definition open (self : Peripheral) (channel : Z) : M unit :=
  rp <~ _method self "open" [VInt channel] ; take_none rp.

Definition close (self : Peripheral) (channel : Z) : M unit :=
  rp <~ _method self "close" [VInt channel] ; take_none rp.

Definition closeAll (self : Peripheral) : M unit :=
  rp <~ _method self "closeAll" [] ; take_none rp.

Definition transmit (self : Peripheral) (channel replyChannel : Z)
    (message : value) : M unit :=
  rp <~ _method self "transmit" [VInt channel; VInt replyChannel; message] ;
  take_none rp.

Definition isWireless (self : Peripheral) : M bool :=
  rp <~ _method self "isWireless" [] ; take_bool rp.

(** The property [_side]: [self._prepend_params[0]]. *)
Definition _side (self : Peripheral) : Result value :=
  match _prepend_params self !! 0%nat with
  | Some v => Ok v
  | None => Raise IndexError
  end.

(** ** CCInventory (the operation used in the forwarding scenario) *)

Definition size (self : Peripheral) : M Z :=
  rp <~ _method self "size" [] ; take_int rp.

(** ** CCWiredModem *)

Definition getTypeRemote (self : Peripheral) (peripheralName : string)
    : M (option string) :=
  rp <~ _method self "getTypeRemote" [VBytes (ser_encode peripheralName)] ;
  take_option_string rp.

Definition isPresentRemote (self : Peripheral) (peripheralName : string)
    : M bool :=
  rp <~ _method self "isPresentRemote" [VBytes (ser_encode peripheralName)] ;
  take_bool rp.

(** The subscript [TYPE_MAP[ptype]] of a Python dict. *)
Definition TYPE_MAP_getitem (ptype : string) : M PCls :=
  fun w =>
    match TYPE_MAP w !! ptype with
    | Some pcls => (Ok pcls, w)
    | None => (Raise (KeyError ptype), w)
    end.

Definition wrapRemote (self : Peripheral) (peripheralName : string)
    : M (option Peripheral) :=
  ptype <~ getTypeRemote self peripheralName ;
  match ptype with
  | None => ret None
  | Some ptype =>
      pcls <~ TYPE_MAP_getitem ptype ;
      ret (Some (construct pcls (_lua_method_expr self)
                   (_prepend_params self ++
                    [VBytes "callRemote"; VBytes (ser_encode peripheralName)])))
  end.

(** ** Module-level functions *)

Definition isPresent (side : string) : M bool :=
  rp <~ method "isPresent" [VBytes (ser_encode side)] ; take_bool rp.

Definition getType (side : string) : M (option string) :=
  rp <~ method "getType" [VBytes (ser_encode side)] ; take_option_string rp.

Definition wrap (side : string) : M (option Peripheral) :=
  ptype <~ getType side ;
  match ptype with
  | None => ret None
  | Some ptype =>
      let m := "peripheral.call" in
      let side := VBytes (ser_encode side) in
      if String.eqb ptype "modem" then
        rp <~ method "call" [side; VBytes "isWireless"] ;
        b <~ take_bool rp ;
        if b then ret (Some (construct CCWirelessModem m [side]))
        else ret (Some (construct CCWiredModem m [side]))
      else
        pcls <~ TYPE_MAP_getitem ptype ;
        ret (Some (construct pcls m [side]))
  end.

Definition registerType (ptype : string) (pcls : PCls) : M unit :=
  fun w => (Ok tt, set_TYPE_MAP (<[ptype := pcls]> (TYPE_MAP w)) w).

(** A [for] statement over a list literal. *)
Fixpoint for_each {A} (xs : list A) (body : A -> M unit) : M unit :=
  match xs with
  | [] => ret tt
  | x :: xs' => body x ;> for_each xs' body
  end.

(** The statements the module runs when it is imported: [TYPE_MAP = {}]
    and the registrations at the end of the file. *)
Definition module_init : M unit :=
  (fun w => (Ok tt, set_TYPE_MAP ∅ w)) ;>
  registerType "drive" CCDrive ;>
  registerType "monitor" CCMonitor ;>
  registerType "computer" CCComputer ;>
  registerType "turtle" CCTurtle ;>
  registerType "printer" CCPrinter ;>
  registerType "speaker" CCSpeaker ;>
  registerType "command" CCCommandBlock ;>
  registerType "workbench" CCWorkbench ;>
  registerType "webdisplays" CCWebDisplay ;>
  registerType "NBT_Observer" CCNBTObserver ;>
  registerType "3d_projector" CC3dProjector ;>
  registerType "manipulator" CCManipulator ;>
  for_each
    ["chest"; "furnace"; "barrel"; "hopper"; "dropper"; "dispenser";
     "blast_furnace"; "smoker"; "shulker_box"; "brewing_stand"]
    (fun k => registerType ("minecraft:" +:+ k) CCInventory).

(** ** The generator of [ModemMixin.receive]

    A call of a generator function runs none of its body: it returns a
    generator object.  The object is driven by the consumer with [next],
    [close] (also what dropping the object does) and [throw].  The body of
    [receive] has one [yield], inside the [try], so a started generator is
    either suspended there or finished. *)

Inductive GenState : Type :=
  | GCreated      (* the body has not started *)
  | GSuspended    (* stopped at the yield, inside the try block *)
  | GFinished.    (* the body has returned or raised *)

Record Generator : Type := mkGenerator {
  gen_self : Peripheral;
  gen_channel : Z;
  gen_state : GenState
}.

Definition with_state (st : GenState) (g : Generator) : Generator :=
  mkGenerator (gen_self g) (gen_channel g) st.

(** [receive(self, channel)]: the call itself only makes the object. *)
Definition receive (self : Peripheral) (channel : Z) : M Generator :=
  ret (mkGenerator self channel GCreated).

(** How one run of the [for] loop leaves the [try] block. *)
Inductive LoopExit : Type :=
  | Yield (msg : ModemMessage)   (* reached the yield *)
  | Exhausted                    (* captureEvent has no more events *)
  | Failed (e : Exn).            (* an exception escapes the loop *)

(** The [for] loop of [receive] from its head, on the events still to
    come: each turn takes the next entry of the feed.  It returns with the
    events it has not consumed. *)
Fixpoint receive_for (self : Peripheral) (channel : Z) (evs : list Feed)
    : LoopExit * list Feed :=
  match evs with
  | [] => (Exhausted, [])
  | Fault e :: rest => (Failed e, rest)
  | Event evt :: rest =>
      match evt !! 0%nat with
      | None => (Failed IndexError, rest)
      | Some evt0 =>
        match _side self with
        | Raise e => (Failed e, rest)
        | Ok side =>
          if py_ne evt0 side then receive_for self channel rest
          else
            match evt !! 1%nat with
            | None => (Failed IndexError, rest)
            | Some evt1 =>
              if py_ne evt1 (VInt channel) then receive_for self channel rest
              else
                match ModemMessage_init (drop 2 evt) with
                | Ok msg => (Yield msg, rest)
                | Raise e => (Failed e, rest)
                end
            end
        end
      end
  end.

(** The [finally] block: [self.close(channel)], then the pending outcome
    unless [close] itself raised. *)
Definition run_finally {A} (g : Generator) (pending : Result A) (w : World)
    : Result A * Generator * World :=
  match close (gen_self g) (gen_channel g) w with
  | (Ok _, w') => (pending, with_state GFinished g, w')
  | (Raise e, w') => (Raise e, with_state GFinished g, w')
  end.

(** Run the body from the head of the loop up to the next [yield] or to
    the end of the body. *)
Definition resume (g : Generator) (w : World)
    : Result ModemMessage * Generator * World :=
  let '(exit, rest) := receive_for (gen_self g) (gen_channel g) (feed w) in
  let w := set_feed rest w in
  match exit with
  | Yield msg => (Ok msg, with_state GSuspended g, w)
  | Exhausted => run_finally g (Raise StopIteration) w
  | Failed e => run_finally g (Raise e) w
  end.

(** The statements before the [try]: the busy check and the open call. *)
Definition handshake (self : Peripheral) (channel : Z) : M unit :=
  busy <~ isOpen self channel ;
  if (busy : bool) then raise (PyException "Channel is busy")
  else open self channel.

(** [next(g)] *)
Definition gen_next (g : Generator) (w : World)
    : Result ModemMessage * Generator * World :=
  match gen_state g with
  | GCreated =>
      match handshake (gen_self g) (gen_channel g) w with
      | (Raise e, w') => (Raise e, with_state GFinished g, w')
      | (Ok _, w') => resume g w'
      end
  | GSuspended => resume g w
  | GFinished => (Raise StopIteration, g, w)
  end.

(** [g.close()]: [GeneratorExit] is raised at the [yield]; a generator
    that has not started finishes without running anything. *)
Definition gen_close (g : Generator) (w : World)
    : Result unit * Generator * World :=
  match gen_state g with
  | GCreated => (Ok tt, with_state GFinished g, w)
  | GSuspended => run_finally g (Ok tt) w
  | GFinished => (Ok tt, g, w)
  end.

(** An exception that leaves the body of a generator: a [StopIteration]
    that propagates out of the body reaches the caller as
    [RuntimeError('generator raised StopIteration')]. *)
Definition escaping (e : Exn) : Exn :=
  match e with
  | StopIteration => RuntimeError "generator raised StopIteration"
  | _ => e
  end.

(** [g.throw(e)]: [e] is raised at the [yield], or at the start of the
    body of a generator that has not started, and propagates out of the
    body; on a finished generator no body runs and [e] is raised as it
    is. *)
Definition gen_throw (e : Exn) (g : Generator) (w : World)
    : Result unit * Generator * World :=
  match gen_state g with
  | GCreated => (Raise (escaping e), with_state GFinished g, w)
  | GSuspended => run_finally g (Raise (escaping e)) w
  | GFinished => (Raise e, g, w)
  end.

(** ** Consumers *)

(** What a consumer can do with the generator object. *)
Inductive Action : Type :=
  | ANext
  | AClose
  | AThrow (e : Exn).

(** One action; the message delivered, if any. *)
Definition act (a : Action) (g : Generator) (w : World)
    : option ModemMessage * Generator * World :=
  match a with
  | ANext =>
      match gen_next g w with
      | (Ok msg, g', w') => (Some msg, g', w')
      | (Raise _, g', w') => (None, g', w')
      end
  | AClose => let '(_, g', w') := gen_close g w in (None, g', w')
  | AThrow e => let '(_, g', w') := gen_throw e g w in (None, g', w')
  end.

(** A consumer as the list of its actions; the messages it received. *)
Fixpoint drive (acts : list Action) (g : Generator) (w : World)
    : list ModemMessage * Generator * World :=
  match acts with
  | [] => ([], g, w)
  | a :: acts' =>
      let '(m, g1, w1) := act a g w in
      let '(ms, g2, w2) := drive acts' g1 w1 in
      ((option_list m ++ ms)%list, g2, w2)
  end.

(** ** Vocabulary of the statements *)

(** The request that [self._method(name, *params)] sends. *)
Definition method_request (self : Peripheral) (name : string)
    (params : list value) : Request :=
  mkRequest ("return " +:+ _lua_method_expr self +:+ "(...)")
            (_prepend_params self ++ [VBytes (ser_encode name)] ++ params).

(** The three requests of a subscription. *)
Definition isOpen_request (self : Peripheral) (channel : Z) : Request :=
  method_request self "isOpen" [VInt channel].
Definition open_request (self : Peripheral) (channel : Z) : Request :=
  method_request self "open" [VInt channel].
Definition close_request (self : Peripheral) (channel : Z) : Request :=
  method_request self "close" [VInt channel].

(** The request that [method(name, *params)] sends. *)
Definition module_request (name : string) (params : list value) : Request :=
  mkRequest ("return peripheral." +:+ name +:+ "(...)") params.

(** The requests sent between two worlds of one run. *)
Definition issued_since (w0 w : World) : list Request :=
  drop (length (log w0)) (log w).

(** A live subscription has sent nothing since the open call returned
    in world [w1]; an ended one has sent exactly the close call. *)
Definition closed_once (self : Peripheral) (channel : Z) (w1 : World)
    (g : Generator) (w : World) : Prop :=
  match gen_state g with
  | GCreated => False
  | GSuspended => issued_since w1 w = []
  | GFinished => issued_since w1 w = [close_request self channel]
  end.

(** The invariant of a reserved subscription, in terms of the log. *)
Definition reserved_inv (self : Peripheral) (c : Z) (w1 : World)
    (g : Generator) (w : World) : Prop :=
  gen_self g = self /\ gen_channel g = c /\
  ((gen_state g = GSuspended /\ log w = log w1) \/
   (gen_state g = GFinished /\ log w = log w1 ++ [close_request self c])).

(** A well-formed [modem_message] event: side, channel, reply channel,
    payload, distance. *)
Record InboundEvent : Type := mkInboundEvent {
  ev_side : value;
  ev_channel : value;
  ev_reply : value;
  ev_payload : value;
  ev_distance : value
}.

Definition event_tuple (e : InboundEvent) : list value :=
  [ev_side e; ev_channel e; ev_reply e; ev_payload e; ev_distance e].

Definition inbound (evs : list InboundEvent) : list Feed :=
  map (fun e => Event (event_tuple e)) evs.

(** What the specification asks of a subscription on [side] and
    [channel]: the matching events, in order, as messages. *)
Definition spec_matches (side : value) (channel : Z) (e : InboundEvent) : bool :=
  py_eq (ev_side e) side && py_eq (ev_channel e) (VInt channel).

Definition spec_message (e : InboundEvent) : ModemMessage :=
  mkModemMessage (ev_reply e) (ev_payload e) (ev_distance e).

Definition spec_subscription (side : value) (channel : Z)
    (evs : list InboundEvent) : list ModemMessage :=
  map spec_message (filter (fun e => spec_matches side channel e = true) evs).

End Model.

(** The kinds registered when the module is imported: the twelve
    registered one by one, and the ten inventory blocks of the loop. *)
Definition explicit_kinds : list (string * PCls) :=
  [("drive", CCDrive); ("monitor", CCMonitor); ("computer", CCComputer);
   ("turtle", CCTurtle); ("printer", CCPrinter); ("speaker", CCSpeaker);
   ("command", CCCommandBlock); ("workbench", CCWorkbench);
   ("webdisplays", CCWebDisplay); ("NBT_Observer", CCNBTObserver);
   ("3d_projector", CC3dProjector); ("manipulator", CCManipulator)].

Definition inventory_kinds : list string :=
  ["chest"; "furnace"; "barrel"; "hopper"; "dropper"; "dispenser";
   "blast_furnace"; "smoker"; "shulker_box"; "brewing_stand"].

Definition builtin_kinds : list (string * PCls) :=
  explicit_kinds ++
  map (fun k => ("minecraft:" +:+ k, CCInventory)) inventory_kinds.

(** ** A sample host

    A small computer used to run the definitions on concrete inputs: a
    wireless modem on the left, a wired modem at the back with a furnace
    and a second modem behind it, a disk drive on the right, and on top a
    device of a kind the module does not know.  Its state is the list of
    open channels, per side. *)
Module Sample.

Definition kind_of (side : string) : value :=
  if String.eqb side "left" then VBytes "modem"
  else if String.eqb side "back" then VBytes "modem"
  else if String.eqb side "right" then VBytes "drive"
  else if String.eqb side "top" then VBytes "energy_cell"
  else VNone.

Definition remote_kind_of (name : string) : value :=
  if String.eqb name "furnace_0" then VBytes "minecraft:furnace"
  else if String.eqb name "modem_1" then VBytes "modem"
  else if String.eqb name "cell_2" then VBytes "energy_cell"
  else VNone.

Definition is_open (side : string) (c : Z) (h : list (string * Z)) : bool :=
  existsb (fun sc => String.eqb (fst sc) side && Z.eqb (snd sc) c) h.

Definition call (side name : string) (args : list value)
    (h : list (string * Z)) : Result value * list (string * Z) :=
  let modem := String.eqb side "left" || String.eqb side "back" in
  if negb modem then (Raise (TransportError "no such method"), h)
  else if String.eqb name "isWireless" then (Ok (VBool (String.eqb side "left")), h)
  else if String.eqb name "isOpen" then
    match args with
    | [VInt c] => (Ok (VBool (is_open side c h)), h)
    | _ => (Raise (TransportError "bad argument"), h)
    end
  else if String.eqb name "open" then
    match args with
    | [VInt c] => (Ok VNone, (side, c) :: h)
    | _ => (Raise (TransportError "bad argument"), h)
    end
  else if String.eqb name "close" then
    match args with
    | [VInt c] =>
        (Ok VNone,
         List.filter (fun sc => negb (String.eqb (fst sc) side && Z.eqb (snd sc) c)) h)
    | _ => (Raise (TransportError "bad argument"), h)
    end
  else if String.eqb name "getTypeRemote" then
    match args with
    | [VBytes n] => (Ok (remote_kind_of n), h)
    | _ => (Raise (TransportError "bad argument"), h)
    end
  else if String.eqb name "callRemote" then
    match args with
    | [VBytes n; VBytes m] =>
        if String.eqb n "furnace_0" && String.eqb m "size" then (Ok (VInt 3), h)
        else (Raise (TransportError "no such method"), h)
    | _ => (Raise (TransportError "bad argument"), h)
    end
  else (Raise (TransportError "no such method"), h).

Definition answer (rq : Request) (h : list (string * Z))
    : Result value * list (string * Z) :=
  if String.eqb (req_code rq) "return peripheral.getType(...)" then
    match req_params rq with
    | [VBytes side] => (Ok (kind_of side), h)
    | _ => (Raise (TransportError "bad argument"), h)
    end
  else if String.eqb (req_code rq) "return peripheral.call(...)" then
    match req_params rq with
    | VBytes side :: VBytes name :: args => call side name args h
    | _ => (Raise (TransportError "bad argument"), h)
    end
  else (Raise (TransportError "unknown function"), h).

Definition computer : Collaborators :=
  {| Host := list (string * Z);
     respond := answer;
     ser_encode := fun s => s;
     ser_decode := fun s => s |}.

(** The world right after the import of the module, with the given
    events to come and the given channels open. *)
Definition world (evs : list Feed) (opened : list (string * Z))
    : @World computer :=
  snd (@module_init computer (@mkWorld computer [] opened evs ∅)).

Definition left_modem : Peripheral :=
  construct CCWirelessModem "peripheral.call" [VBytes "left"].
Definition back_modem : Peripheral :=
  construct CCWiredModem "peripheral.call" [VBytes "back"].

(** A mixed stream on sides left and back, channels 1 and 2. *)
Definition mixed : list InboundEvent :=
  [mkInboundEvent (VBytes "back") (VInt 1) (VInt 7) (VBytes "a") (VInt 10);
   mkInboundEvent (VBytes "left") (VInt 1) (VInt 8) (VBytes "b") (VInt 11);
   mkInboundEvent (VBytes "left") (VInt 2) (VInt 9) (VBytes "c") (VInt 12);
   mkInboundEvent (VBytes "left") (VInt 1) (VInt 5) (VBytes "d") (VInt 13)].

End Sample.

(** ** A scripted host

    A host that answers the requests it receives with a prepared list of
    replies, whatever the request, and fails once the list is used up: a
    link that goes down, or a device that refuses a call. *)
Module Scripted.

Definition answer (rq : Request) (h : list (Result value))
    : Result value * list (Result value) :=
  match h with
  | r :: h' => (r, h')
  | [] => (Raise (TransportError "disconnected"), [])
  end.

Definition computer : Collaborators :=
  {| Host := list (Result value);
     respond := answer;
     ser_encode := fun s => s;
     ser_decode := fun s => s |}.

(** The world right after the import of the module, with the given
    replies and events to come. *)
Definition world (replies : list (Result value)) (evs : list Feed)
    : @World computer :=
  snd (@module_init computer (@mkWorld computer [] replies evs ∅)).

Definition left_modem : Peripheral :=
  construct CCWirelessModem "peripheral.call" [VBytes "left"].
Definition back_modem : Peripheral :=
  construct CCWiredModem "peripheral.call" [VBytes "back"].

End Scripted.

(** ** A host that loses the answer of the open call

    The computer of [Sample], except that the answer to the [open] call
    of a modem never arrives: the channel is opened on the host and the
    round trip fails. *)
Module Lossy.

Definition is_open_call (rq : Request) : option (string * Z) :=
  if String.eqb (req_code rq) "return peripheral.call(...)" then
    match req_params rq with
    | [VBytes side; VBytes name; VInt c] =>
        if String.eqb name "open" then Some (side, c) else None
    | _ => None
    end
  else None.

Definition answer (rq : Request) (h : list (string * Z))
    : Result value * list (string * Z) :=
  match is_open_call rq with
  | Some sc => (Raise (TransportError "reply lost"), sc :: h)
  | None => Sample.answer rq h
  end.

Definition computer : Collaborators :=
  {| Host := list (string * Z);
     respond := answer;
     ser_encode := fun s => s;
     ser_decode := fun s => s |}.

Definition world (evs : list Feed) (opened : list (string * Z))
    : @World computer :=
  snd (@module_init computer (@mkWorld computer [] opened evs ∅)).

End Lossy.

Section Provenance.
Context {env : Collaborators}.

(** The message [msg] is the one made from a five-component event of
    the list [evs] whose side and channel are those of the proxy and the
    channel given. *)
Definition explains (self : Peripheral) (channel : Z) (evs : list Feed)
    (msg : ModemMessage) : Prop :=
  exists side s ch r p d,
    _side self = Ok side /\
    Event [s; ch; r; p; d] ∈ evs /\
    py_eq s side = true /\ py_eq ch (VInt channel) = true /\
    msg = mkModemMessage r p d.

(** The three requests a subscription can send, in the order of the
    body of [receive]. *)
Definition subscription_requests (self : Peripheral) (channel : Z)
    : list Request :=
  [isOpen_request self channel; open_request self channel;
   close_request self channel].

(** The log of a subscription that started in world [w0], by the state
    of its generator. *)
Definition trace_inv (self : Peripheral) (c : Z) (w0 : World)
    (g : Generator) (w : World) : Prop :=
  gen_self g = self /\ gen_channel g = c /\
  match gen_state g with
  | GCreated => log w = log w0
  | GSuspended =>
      log w = log w0 ++ [isOpen_request self c; open_request self c]
  | GFinished =>
      exists k : nat, log w = log w0 ++ take k (subscription_requests self c)
  end.

End Provenance.

(** ** The typed operations of the peripheral classes

    Every method of the classes of the file, [receive] and [wrapRemote]
    apart, is one call of [_method] followed by an extraction from the
    result, or by none when the method returns the result as it is.  The
    extractions and encoders that the file imports and the model has not
    met so far are taken as parameters. *)
Module Extern.

Class Extractors : Type := {
  PyObject : Type;                                  (* dicts, lists, raw items *)
  take : value -> Result PyObject;
  take_dict : value -> Result PyObject;
  take_list : value -> Result PyObject;
  take_list_of_strings : value -> Result (list string);
  take_string : value -> Result string;
  take_option_int : value -> Result (option Z);
  take_option_string_bool : value -> Result PyObject;
  take_ints : nat -> value -> Result (list Z);      (* n times take_int *)
  take_strings : nat -> value -> Result (list string);
  ser_nil_encode : option string -> value;
  ser_dirty_encode : string -> string;
  str_encode_utf8 : string -> string
}.

End Extern.

(** An extraction that does not touch the world. *)
Definition pure_take {env : Collaborators} {A} (f : value -> Result A)
    (rp : value) : M A :=
  fun w => (f rp, w).

(** [CCDrive] *)
Module Drive.
Section Ops.
Context {env : Collaborators} {ext : Extern.Extractors}.

Definition isDiskPresent (self : Peripheral) : M bool :=
  bind (_method self "isDiskPresent" []) take_bool.

Definition getDiskLabel (self : Peripheral) : M (option string) :=
  bind (_method self "getDiskLabel" []) take_option_string.

Definition setDiskLabel (self : Peripheral) (label : option string)
    : M unit :=
  bind (_method self "setDiskLabel" [Extern.ser_nil_encode label]) take_none.

Definition hasData (self : Peripheral) : M bool :=
  bind (_method self "hasData" []) take_bool.

Definition getMountPath (self : Peripheral) : M (option string) :=
  bind (_method self "getMountPath" []) take_option_string.

Definition hasAudio (self : Peripheral) : M bool :=
  bind (_method self "hasAudio" []) take_bool.

Definition getAudioTitle (self : Peripheral) : M Extern.PyObject :=
  bind (_method self "getAudioTitle" [])
       (pure_take Extern.take_option_string_bool).

Definition playAudio (self : Peripheral) : M unit :=
  bind (_method self "playAudio" []) take_none.

Definition stopAudio (self : Peripheral) : M unit :=
  bind (_method self "stopAudio" []) take_none.

Definition ejectDisk (self : Peripheral) : M unit :=
  bind (_method self "ejectDisk" []) take_none.

Definition getDiskID (self : Peripheral) : M (option Z) :=
  bind (_method self "getDiskID" []) (pure_take Extern.take_option_int).

End Ops.
End Drive.

(** [CCMonitor] *)
Module Monitor.
Section Ops.
Context {env : Collaborators} {ext : Extern.Extractors}.

Definition getTextScale (self : Peripheral) : M Z :=
  bind (_method self "getTextScale" []) take_int.

Definition setTextScale (self : Peripheral) (scale : Z) : M unit :=
  bind (_method self "setTextScale" [VInt scale]) take_none.

End Ops.
End Monitor.

(** [ComputerMixin] *)
Module Computer.
Section Ops.
Context {env : Collaborators} {ext : Extern.Extractors}.

Definition turnOn (self : Peripheral) : M unit :=
  bind (_method self "turnOn" []) take_none.

Definition shutdown (self : Peripheral) : M unit :=
  bind (_method self "shutdown" []) take_none.

Definition reboot (self : Peripheral) : M unit :=
  bind (_method self "reboot" []) take_none.

Definition getID (self : Peripheral) : M Z :=
  bind (_method self "getID" []) take_int.

Definition getLabel (self : Peripheral) : M (option string) :=
  bind (_method self "getLabel" []) take_option_string.

Definition isOn (self : Peripheral) : M bool :=
  bind (_method self "isOn" []) take_bool.

End Ops.
End Computer.

(** [CCPrinter] *)
Module Printer.
Section Ops.
Context {env : Collaborators} {ext : Extern.Extractors}.

Definition newPage (self : Peripheral) : M bool :=
  bind (_method self "newPage" []) take_bool.

Definition endPage (self : Peripheral) : M bool :=
  bind (_method self "endPage" []) take_bool.

Definition write (self : Peripheral) (text : string) : M unit :=
  bind (_method self "write" [VBytes (Extern.ser_dirty_encode text)])
       take_none.

Definition setCursorPos (self : Peripheral) (x : Z) (y : Z) : M unit :=
  bind (_method self "setCursorPos" [VInt x; VInt y]) take_none.

Definition getCursorPos (self : Peripheral) : M (list Z) :=
  bind (_method self "getCursorPos" []) (pure_take (Extern.take_ints 2)).

Definition getPageSize (self : Peripheral) : M (list Z) :=
  bind (_method self "getPageSize" []) (pure_take (Extern.take_ints 2)).

Definition setPageTitle (self : Peripheral) (title : string) : M unit :=
  bind (_method self "setPageTitle" [VBytes (ser_encode title)]) take_none.

Definition getPaperLevel (self : Peripheral) : M Z :=
  bind (_method self "getPaperLevel" []) take_int.

Definition getInkLevel (self : Peripheral) : M Z :=
  bind (_method self "getInkLevel" []) take_int.

End Ops.
End Printer.

(** [CCSpeaker] *)
Module Speaker.
Section Ops.
Context {env : Collaborators} {ext : Extern.Extractors}.

Definition playNote (self : Peripheral) (instrument : string) (volume : option Z) (pitch : option Z)
    : M bool :=
  bind (_method self "playNote" [VBytes (ser_encode instrument); VInt (default 1 volume); VInt (default 1 pitch)])
       take_bool.

Definition playSound (self : Peripheral) (sound : string) (volume : option Z) (pitch : option Z)
    : M bool :=
  bind (_method self "playSound" [VBytes (ser_encode sound); VInt (default 1 volume); VInt (default 1 pitch)])
       take_bool.

End Ops.
End Speaker.

(** [CCCommandBlock] *)
Module CommandBlock.
Section Ops.
Context {env : Collaborators} {ext : Extern.Extractors}.

Definition getCommand (self : Peripheral) : M string :=
  bind (_method self "getCommand" []) (pure_take Extern.take_string).

Definition setCommand (self : Peripheral) (command : string) : M unit :=
  bind (_method self "setCommand" [VBytes (ser_encode command)]) take_none.

Definition runCommand (self : Peripheral) : M bool :=
  bind (_method self "runCommand" []) take_bool.

End Ops.
End CommandBlock.

(** [CCWorkbench] *)
Module Workbench.
Section Ops.
Context {env : Collaborators} {ext : Extern.Extractors}.

Definition craft (self : Peripheral) (quantity : option Z) : M bool :=
  bind (_method self "craft" [VInt (default 64 quantity)]) take_bool.

End Ops.
End Workbench.

(** [CCInventory] *)
Module Inventory.
Section Ops.
Context {env : Collaborators} {ext : Extern.Extractors}.

Definition getItemDetail (self : Peripheral) (slot : Z) : M Extern.PyObject :=
  bind (_method self "getItemDetail" [VInt slot]) (pure_take Extern.take).

Definition pullItems (self : Peripheral) (fromName : string) (fromSlot : Z) (limit : option Z) (toSlot : option Z)
    : M Z :=
  bind (_method self "pullItems" [VBytes (ser_encode fromName); VInt fromSlot; from_option VInt VNone limit; from_option VInt VNone toSlot])
       take_int.

Definition pushItems (self : Peripheral) (toName : string) (fromSlot : Z) (limit : option Z) (toSlot : option Z)
    : M Z :=
  bind (_method self "pushItems" [VBytes (ser_encode toName); VInt fromSlot; from_option VInt VNone limit; from_option VInt VNone toSlot])
       take_int.

Definition list (self : Peripheral) : M Extern.PyObject :=
  bind (_method self "list" []) (pure_take Extern.take_dict).

End Ops.
End Inventory.

(** [CCWebDisplay] *)
Module WebDisplay.
Section Ops.
Context {env : Collaborators} {ext : Extern.Extractors}.

Definition getURL (self : Peripheral) : M string :=
  bind (_method self "getURL" []) (pure_take Extern.take_string).

Definition isLinked (self : Peripheral) : M bool :=
  bind (_method self "isLinked" []) take_bool.

Definition getOwner (self : Peripheral) : M (list string) :=
  bind (_method self "getOwner" []) (pure_take (Extern.take_strings 2)).

Definition getSize (self : Peripheral) : M (list Z) :=
  bind (_method self "getSize" []) (pure_take (Extern.take_ints 2)).

Definition getRotation (self : Peripheral) : M Z :=
  bind (_method self "getRotation" []) take_int.

Definition getScreenSide (self : Peripheral) : M string :=
  bind (_method self "getScreenSide" []) (pure_take Extern.take_string).

Definition getResolution (self : Peripheral) : M (list Z) :=
  bind (_method self "getResolution" []) (pure_take (Extern.take_ints 2)).

Definition getScreenPos (self : Peripheral) : M (list Z) :=
  bind (_method self "getScreenPos" []) (pure_take (Extern.take_ints 3)).

Definition type (self : Peripheral) (txt : string) : M bool :=
  bind (_method self "type" [VStr txt]) take_bool.

Definition click (self : Peripheral) (x : Z) (y : Z) (act : string)
    : M bool :=
  bind (_method self "click" [VInt x; VInt y; VStr act]) take_bool.

Definition runJS (self : Peripheral) (src : string) : M bool :=
  bind (_method self "runJS" [VStr src]) take_bool.

Definition setURL (self : Peripheral) (url : string) : M bool :=
  bind (_method self "setURL" [VStr url]) take_bool.

Definition setRotation (self : Peripheral) (ang : Z) : M bool :=
  bind (_method self "setRotation" [VInt ang]) take_bool.

Definition setResolution (self : Peripheral) (res_x : Z) (res_y : Z)
    : M bool :=
  bind (_method self "setResolution" [VInt res_x; VInt res_y]) take_bool.

End Ops.
End WebDisplay.

(** [CCNBTObserver] *)
Module NBTObserver.
Section Ops.
Context {env : Collaborators} {ext : Extern.Extractors}.

Definition readState (self : Peripheral) : M Extern.PyObject :=
  bind (_method self "readState" []) (pure_take Extern.take_dict).

Definition hasState (self : Peripheral) (arg : string) : M bool :=
  bind (_method self "hasState" [VBytes arg]) take_bool.

Definition writeState (self : Peripheral) (state : value) : M value :=
  _method self "writeState" [state].

Definition readNBT (self : Peripheral) : M string :=
  bind (_method self "readNBT" []) (pure_take Extern.take_string).

Definition hasNBT (self : Peripheral) (nbtKey : string) : M bool :=
  bind (_method self "hasNBT" [VBytes (Extern.str_encode_utf8 nbtKey)])
       take_bool.

Definition writeNBT (self : Peripheral) (nbt : string) : M value :=
  _method self "writeNBT" [VBytes (Extern.str_encode_utf8 nbt)].

End Ops.
End NBTObserver.

(** [CC3dProjector] *)
Module Projector3d.
Section Ops.
Context {env : Collaborators} {ext : Extern.Extractors}.

Definition write (self : Peripheral) (model : value) : M value :=
  _method self "write" [model].

Definition clear (self : Peripheral) : M value :=
  _method self "clear" [].

End Ops.
End Projector3d.

(** [CCManipulator] *)
Module Manipulator.
Section Ops.
Context {env : Collaborators} {ext : Extern.Extractors}.

Definition getBlockMeta (self : Peripheral) (x : Z) (y : Z) (z : Z)
    : M Extern.PyObject :=
  bind (_method self "getBlockMeta" [VInt x; VInt y; VInt z])
       (pure_take Extern.take_dict).

Definition sense (self : Peripheral) : M Extern.PyObject :=
  bind (_method self "sense" []) (pure_take Extern.take_list).

Definition getMetaByID (self : Peripheral) (id : string)
    : M Extern.PyObject :=
  bind (_method self "getMetaByID" [VBytes id]) (pure_take Extern.take_dict).

Definition capture (self : Peripheral) (pattern : string) : M value :=
  _method self "capture" [VBytes (Extern.str_encode_utf8 pattern)].

Definition clearCaptures (self : Peripheral) : M value :=
  _method self "clearCaptures" [].

Definition say (self : Peripheral) (message : string) : M value :=
  _method self "say" [VBytes (Extern.str_encode_utf8 message)].

Definition uncapture (self : Peripheral) (pattern : string) : M value :=
  _method self "uncapture" [VBytes (Extern.str_encode_utf8 pattern)].

End Ops.
End Manipulator.

(** [CCWiredModem] *)
Module WiredModem.
Section Ops.
Context {env : Collaborators} {ext : Extern.Extractors}.

Definition getNameLocal (self : Peripheral) : M (option string) :=
  bind (_method self "getNameLocal" []) take_option_string.

Definition getNamesRemote (self : Peripheral) : M (list string) :=
  bind (_method self "getNamesRemote" [])
       (pure_take Extern.take_list_of_strings).

End Ops.
End WiredModem.

(** The classes that share a set of operations. *)
Inductive OpGroup : Type :=
  | GDrive | GMonitor | GComputer | GPrinter | GSpeaker | GCommandBlock
  | GWorkbench | GInventory | GWebDisplay | GNBTObserver | GProjector3d
  | GManipulator | GModem | GWiredModem.

(** The operations a class has, by inheritance: [ComputerMixin] for the
    computer and the turtle, [ModemMixin] for both modems.  The
    operations that [CCMonitor] inherits from [TermMixin] are not in the
    file; a third-party class has no operation known here. *)
Definition provides (pcls : PCls) (g : OpGroup) : bool :=
  match pcls, g with
  | CCDrive, GDrive
  | CCMonitor, GMonitor
  | CCComputer, GComputer
  | CCTurtle, GComputer
  | CCWirelessModem, GModem
  | CCWiredModem, GModem
  | CCWiredModem, GWiredModem
  | CCPrinter, GPrinter
  | CCSpeaker, GSpeaker
  | CCCommandBlock, GCommandBlock
  | CCWorkbench, GWorkbench
  | CCInventory, GInventory
  | CCWebDisplay, GWebDisplay
  | CCNBTObserver, GNBTObserver
  | CC3dProjector, GProjector3d
  | CCManipulator, GManipulator => true
  | _, _ => false
  end.

(** A call of a typed operation with its arguments; an argument with a
    default value is absent or given. *)
Inductive Operation : Type :=
  | Drive_isDiskPresent
  | Drive_getDiskLabel
  | Drive_setDiskLabel (label : option string)
  | Drive_hasData
  | Drive_getMountPath
  | Drive_hasAudio
  | Drive_getAudioTitle
  | Drive_playAudio
  | Drive_stopAudio
  | Drive_ejectDisk
  | Drive_getDiskID
  | Monitor_getTextScale
  | Monitor_setTextScale (scale : Z)
  | Computer_turnOn
  | Computer_shutdown
  | Computer_reboot
  | Computer_getID
  | Computer_getLabel
  | Computer_isOn
  | Printer_newPage
  | Printer_endPage
  | Printer_write (text : string)
  | Printer_setCursorPos (x : Z) (y : Z)
  | Printer_getCursorPos
  | Printer_getPageSize
  | Printer_setPageTitle (title : string)
  | Printer_getPaperLevel
  | Printer_getInkLevel
  | Speaker_playNote (instrument : string) (volume : option Z) (pitch : option Z)
  | Speaker_playSound (sound : string) (volume : option Z) (pitch : option Z)
  | CommandBlock_getCommand
  | CommandBlock_setCommand (command : string)
  | CommandBlock_runCommand
  | Workbench_craft (quantity : option Z)
  | Inventory_getItemDetail (slot : Z)
  | Inventory_pullItems (fromName : string) (fromSlot : Z) (limit : option Z) (toSlot : option Z)
  | Inventory_pushItems (toName : string) (fromSlot : Z) (limit : option Z) (toSlot : option Z)
  | Inventory_list
  | WebDisplay_getURL
  | WebDisplay_isLinked
  | WebDisplay_getOwner
  | WebDisplay_getSize
  | WebDisplay_getRotation
  | WebDisplay_getScreenSide
  | WebDisplay_getResolution
  | WebDisplay_getScreenPos
  | WebDisplay_type (txt : string)
  | WebDisplay_click (x : Z) (y : Z) (act : string)
  | WebDisplay_runJS (src : string)
  | WebDisplay_setURL (url : string)
  | WebDisplay_setRotation (ang : Z)
  | WebDisplay_setResolution (res_x : Z) (res_y : Z)
  | NBTObserver_readState
  | NBTObserver_hasState (arg : string)
  | NBTObserver_writeState (state : value)
  | NBTObserver_readNBT
  | NBTObserver_hasNBT (nbtKey : string)
  | NBTObserver_writeNBT (nbt : string)
  | Projector3d_write (model : value)
  | Projector3d_clear
  | Manipulator_getBlockMeta (x : Z) (y : Z) (z : Z)
  | Manipulator_sense
  | Manipulator_getMetaByID (id : string)
  | Manipulator_capture (pattern : string)
  | Manipulator_clearCaptures
  | Manipulator_say (message : string)
  | Manipulator_uncapture (pattern : string)
  | WiredModem_getNameLocal
  | WiredModem_getNamesRemote
  | Inventory_size
  | Modem_isOpen (channel : Z)
  | Modem_open (channel : Z)
  | Modem_close (channel : Z)
  | Modem_closeAll
  | Modem_transmit (channel : Z) (replyChannel : Z) (message : value)
  | Modem_isWireless
  | WiredModem_getTypeRemote (peripheralName : string)
  | WiredModem_isPresentRemote (peripheralName : string).

Definition op_group (op : Operation) : OpGroup :=
  match op with
  | Drive_isDiskPresent
  | Drive_getDiskLabel
  | Drive_setDiskLabel _
  | Drive_hasData
  | Drive_getMountPath
  | Drive_hasAudio
  | Drive_getAudioTitle
  | Drive_playAudio
  | Drive_stopAudio
  | Drive_ejectDisk
  | Drive_getDiskID => GDrive
  | Monitor_getTextScale
  | Monitor_setTextScale _ => GMonitor
  | Computer_turnOn
  | Computer_shutdown
  | Computer_reboot
  | Computer_getID
  | Computer_getLabel
  | Computer_isOn => GComputer
  | Printer_newPage
  | Printer_endPage
  | Printer_write _
  | Printer_setCursorPos _ _
  | Printer_getCursorPos
  | Printer_getPageSize
  | Printer_setPageTitle _
  | Printer_getPaperLevel
  | Printer_getInkLevel => GPrinter
  | Speaker_playNote _ _ _
  | Speaker_playSound _ _ _ => GSpeaker
  | CommandBlock_getCommand
  | CommandBlock_setCommand _
  | CommandBlock_runCommand => GCommandBlock
  | Workbench_craft _ => GWorkbench
  | Inventory_getItemDetail _
  | Inventory_pullItems _ _ _ _
  | Inventory_pushItems _ _ _ _
  | Inventory_list
  | Inventory_size => GInventory
  | WebDisplay_getURL
  | WebDisplay_isLinked
  | WebDisplay_getOwner
  | WebDisplay_getSize
  | WebDisplay_getRotation
  | WebDisplay_getScreenSide
  | WebDisplay_getResolution
  | WebDisplay_getScreenPos
  | WebDisplay_type _
  | WebDisplay_click _ _ _
  | WebDisplay_runJS _
  | WebDisplay_setURL _
  | WebDisplay_setRotation _
  | WebDisplay_setResolution _ _ => GWebDisplay
  | NBTObserver_readState
  | NBTObserver_hasState _
  | NBTObserver_writeState _
  | NBTObserver_readNBT
  | NBTObserver_hasNBT _
  | NBTObserver_writeNBT _ => GNBTObserver
  | Projector3d_write _
  | Projector3d_clear => GProjector3d
  | Manipulator_getBlockMeta _ _ _
  | Manipulator_sense
  | Manipulator_getMetaByID _
  | Manipulator_capture _
  | Manipulator_clearCaptures
  | Manipulator_say _
  | Manipulator_uncapture _ => GManipulator
  | WiredModem_getNameLocal
  | WiredModem_getNamesRemote
  | WiredModem_getTypeRemote _
  | WiredModem_isPresentRemote _ => GWiredModem
  | Modem_isOpen _
  | Modem_open _
  | Modem_close _
  | Modem_closeAll
  | Modem_transmit _ _ _
  | Modem_isWireless => GModem
  end.

(** The name under which the operation calls [_method]. *)
Definition op_name (op : Operation) : string :=
  match op with
  | Drive_isDiskPresent => "isDiskPresent"
  | Drive_getDiskLabel => "getDiskLabel"
  | Drive_setDiskLabel _ => "setDiskLabel"
  | Drive_hasData => "hasData"
  | Drive_getMountPath => "getMountPath"
  | Drive_hasAudio => "hasAudio"
  | Drive_getAudioTitle => "getAudioTitle"
  | Drive_playAudio => "playAudio"
  | Drive_stopAudio => "stopAudio"
  | Drive_ejectDisk => "ejectDisk"
  | Drive_getDiskID => "getDiskID"
  | Monitor_getTextScale => "getTextScale"
  | Monitor_setTextScale _ => "setTextScale"
  | Computer_turnOn => "turnOn"
  | Computer_shutdown => "shutdown"
  | Computer_reboot => "reboot"
  | Computer_getID => "getID"
  | Computer_getLabel => "getLabel"
  | Computer_isOn => "isOn"
  | Printer_newPage => "newPage"
  | Printer_endPage => "endPage"
  | Printer_write _ => "write"
  | Printer_setCursorPos _ _ => "setCursorPos"
  | Printer_getCursorPos => "getCursorPos"
  | Printer_getPageSize => "getPageSize"
  | Printer_setPageTitle _ => "setPageTitle"
  | Printer_getPaperLevel => "getPaperLevel"
  | Printer_getInkLevel => "getInkLevel"
  | Speaker_playNote _ _ _ => "playNote"
  | Speaker_playSound _ _ _ => "playSound"
  | CommandBlock_getCommand => "getCommand"
  | CommandBlock_setCommand _ => "setCommand"
  | CommandBlock_runCommand => "runCommand"
  | Workbench_craft _ => "craft"
  | Inventory_getItemDetail _ => "getItemDetail"
  | Inventory_pullItems _ _ _ _ => "pullItems"
  | Inventory_pushItems _ _ _ _ => "pushItems"
  | Inventory_list => "list"
  | WebDisplay_getURL => "getURL"
  | WebDisplay_isLinked => "isLinked"
  | WebDisplay_getOwner => "getOwner"
  | WebDisplay_getSize => "getSize"
  | WebDisplay_getRotation => "getRotation"
  | WebDisplay_getScreenSide => "getScreenSide"
  | WebDisplay_getResolution => "getResolution"
  | WebDisplay_getScreenPos => "getScreenPos"
  | WebDisplay_type _ => "type"
  | WebDisplay_click _ _ _ => "click"
  | WebDisplay_runJS _ => "runJS"
  | WebDisplay_setURL _ => "setURL"
  | WebDisplay_setRotation _ => "setRotation"
  | WebDisplay_setResolution _ _ => "setResolution"
  | NBTObserver_readState => "readState"
  | NBTObserver_hasState _ => "hasState"
  | NBTObserver_writeState _ => "writeState"
  | NBTObserver_readNBT => "readNBT"
  | NBTObserver_hasNBT _ => "hasNBT"
  | NBTObserver_writeNBT _ => "writeNBT"
  | Projector3d_write _ => "write"
  | Projector3d_clear => "clear"
  | Manipulator_getBlockMeta _ _ _ => "getBlockMeta"
  | Manipulator_sense => "sense"
  | Manipulator_getMetaByID _ => "getMetaByID"
  | Manipulator_capture _ => "capture"
  | Manipulator_clearCaptures => "clearCaptures"
  | Manipulator_say _ => "say"
  | Manipulator_uncapture _ => "uncapture"
  | WiredModem_getNameLocal => "getNameLocal"
  | WiredModem_getNamesRemote => "getNamesRemote"
  | Inventory_size => "size"
  | Modem_isOpen _ => "isOpen"
  | Modem_open _ => "open"
  | Modem_close _ => "close"
  | Modem_closeAll => "closeAll"
  | Modem_transmit _ _ _ => "transmit"
  | Modem_isWireless => "isWireless"
  | WiredModem_getTypeRemote _ => "getTypeRemote"
  | WiredModem_isPresentRemote _ => "isPresentRemote"
  end.

Section Invoke.
Context {env : Collaborators} {ext : Extern.Extractors}.

(** Run a call and drop what it returns. *)
Definition discard {A} (m : M A) : M unit := bind m (fun _ => ret tt).

(** The call of the operation on a proxy. *)
Definition invoke (op : Operation) (self : Peripheral) : M unit :=
  match op with
  | Drive_isDiskPresent => discard (Drive.isDiskPresent self)
  | Drive_getDiskLabel => discard (Drive.getDiskLabel self)
  | Drive_setDiskLabel label => discard (Drive.setDiskLabel self label)
  | Drive_hasData => discard (Drive.hasData self)
  | Drive_getMountPath => discard (Drive.getMountPath self)
  | Drive_hasAudio => discard (Drive.hasAudio self)
  | Drive_getAudioTitle => discard (Drive.getAudioTitle self)
  | Drive_playAudio => discard (Drive.playAudio self)
  | Drive_stopAudio => discard (Drive.stopAudio self)
  | Drive_ejectDisk => discard (Drive.ejectDisk self)
  | Drive_getDiskID => discard (Drive.getDiskID self)
  | Monitor_getTextScale => discard (Monitor.getTextScale self)
  | Monitor_setTextScale scale => discard (Monitor.setTextScale self scale)
  | Computer_turnOn => discard (Computer.turnOn self)
  | Computer_shutdown => discard (Computer.shutdown self)
  | Computer_reboot => discard (Computer.reboot self)
  | Computer_getID => discard (Computer.getID self)
  | Computer_getLabel => discard (Computer.getLabel self)
  | Computer_isOn => discard (Computer.isOn self)
  | Printer_newPage => discard (Printer.newPage self)
  | Printer_endPage => discard (Printer.endPage self)
  | Printer_write text => discard (Printer.write self text)
  | Printer_setCursorPos x y => discard (Printer.setCursorPos self x y)
  | Printer_getCursorPos => discard (Printer.getCursorPos self)
  | Printer_getPageSize => discard (Printer.getPageSize self)
  | Printer_setPageTitle title => discard (Printer.setPageTitle self title)
  | Printer_getPaperLevel => discard (Printer.getPaperLevel self)
  | Printer_getInkLevel => discard (Printer.getInkLevel self)
  | Speaker_playNote instrument volume pitch => discard (Speaker.playNote self instrument volume pitch)
  | Speaker_playSound sound volume pitch => discard (Speaker.playSound self sound volume pitch)
  | CommandBlock_getCommand => discard (CommandBlock.getCommand self)
  | CommandBlock_setCommand command => discard (CommandBlock.setCommand self command)
  | CommandBlock_runCommand => discard (CommandBlock.runCommand self)
  | Workbench_craft quantity => discard (Workbench.craft self quantity)
  | Inventory_getItemDetail slot => discard (Inventory.getItemDetail self slot)
  | Inventory_pullItems fromName fromSlot limit toSlot => discard (Inventory.pullItems self fromName fromSlot limit toSlot)
  | Inventory_pushItems toName fromSlot limit toSlot => discard (Inventory.pushItems self toName fromSlot limit toSlot)
  | Inventory_list => discard (Inventory.list self)
  | WebDisplay_getURL => discard (WebDisplay.getURL self)
  | WebDisplay_isLinked => discard (WebDisplay.isLinked self)
  | WebDisplay_getOwner => discard (WebDisplay.getOwner self)
  | WebDisplay_getSize => discard (WebDisplay.getSize self)
  | WebDisplay_getRotation => discard (WebDisplay.getRotation self)
  | WebDisplay_getScreenSide => discard (WebDisplay.getScreenSide self)
  | WebDisplay_getResolution => discard (WebDisplay.getResolution self)
  | WebDisplay_getScreenPos => discard (WebDisplay.getScreenPos self)
  | WebDisplay_type txt => discard (WebDisplay.type self txt)
  | WebDisplay_click x y act => discard (WebDisplay.click self x y act)
  | WebDisplay_runJS src => discard (WebDisplay.runJS self src)
  | WebDisplay_setURL url => discard (WebDisplay.setURL self url)
  | WebDisplay_setRotation ang => discard (WebDisplay.setRotation self ang)
  | WebDisplay_setResolution res_x res_y => discard (WebDisplay.setResolution self res_x res_y)
  | NBTObserver_readState => discard (NBTObserver.readState self)
  | NBTObserver_hasState arg => discard (NBTObserver.hasState self arg)
  | NBTObserver_writeState state => discard (NBTObserver.writeState self state)
  | NBTObserver_readNBT => discard (NBTObserver.readNBT self)
  | NBTObserver_hasNBT nbtKey => discard (NBTObserver.hasNBT self nbtKey)
  | NBTObserver_writeNBT nbt => discard (NBTObserver.writeNBT self nbt)
  | Projector3d_write model => discard (Projector3d.write self model)
  | Projector3d_clear => discard (Projector3d.clear self)
  | Manipulator_getBlockMeta x y z => discard (Manipulator.getBlockMeta self x y z)
  | Manipulator_sense => discard (Manipulator.sense self)
  | Manipulator_getMetaByID id => discard (Manipulator.getMetaByID self id)
  | Manipulator_capture pattern => discard (Manipulator.capture self pattern)
  | Manipulator_clearCaptures => discard (Manipulator.clearCaptures self)
  | Manipulator_say message => discard (Manipulator.say self message)
  | Manipulator_uncapture pattern => discard (Manipulator.uncapture self pattern)
  | WiredModem_getNameLocal => discard (WiredModem.getNameLocal self)
  | WiredModem_getNamesRemote => discard (WiredModem.getNamesRemote self)
  | Inventory_size => discard (size self)
  | Modem_isOpen channel => discard (isOpen self channel)
  | Modem_open channel => discard (open self channel)
  | Modem_close channel => discard (close self channel)
  | Modem_closeAll => discard (closeAll self)
  | Modem_transmit channel replyChannel message => discard (transmit self channel replyChannel message)
  | Modem_isWireless => discard (isWireless self)
  | WiredModem_getTypeRemote peripheralName => discard (getTypeRemote self peripheralName)
  | WiredModem_isPresentRemote peripheralName => discard (isPresentRemote self peripheralName)
  end.

(** The arguments the operation hands to [_method] after the name: those
    of the caller, in order, encoded as the method encodes them. *)
Definition op_params (op : Operation) : list value :=
  match op with
  | Drive_isDiskPresent => []
  | Drive_getDiskLabel => []
  | Drive_setDiskLabel label => [Extern.ser_nil_encode label]
  | Drive_hasData => []
  | Drive_getMountPath => []
  | Drive_hasAudio => []
  | Drive_getAudioTitle => []
  | Drive_playAudio => []
  | Drive_stopAudio => []
  | Drive_ejectDisk => []
  | Drive_getDiskID => []
  | Monitor_getTextScale => []
  | Monitor_setTextScale scale => [VInt scale]
  | Computer_turnOn => []
  | Computer_shutdown => []
  | Computer_reboot => []
  | Computer_getID => []
  | Computer_getLabel => []
  | Computer_isOn => []
  | Printer_newPage => []
  | Printer_endPage => []
  | Printer_write text => [VBytes (Extern.ser_dirty_encode text)]
  | Printer_setCursorPos x y => [VInt x; VInt y]
  | Printer_getCursorPos => []
  | Printer_getPageSize => []
  | Printer_setPageTitle title => [VBytes (ser_encode title)]
  | Printer_getPaperLevel => []
  | Printer_getInkLevel => []
  | Speaker_playNote instrument volume pitch =>
      [VBytes (ser_encode instrument); VInt (default 1 volume); VInt (default 1 pitch)]
  | Speaker_playSound sound volume pitch =>
      [VBytes (ser_encode sound); VInt (default 1 volume); VInt (default 1 pitch)]
  | CommandBlock_getCommand => []
  | CommandBlock_setCommand command => [VBytes (ser_encode command)]
  | CommandBlock_runCommand => []
  | Workbench_craft quantity => [VInt (default 64 quantity)]
  | Inventory_getItemDetail slot => [VInt slot]
  | Inventory_pullItems fromName fromSlot limit toSlot =>
      [VBytes (ser_encode fromName); VInt fromSlot; from_option VInt VNone limit; from_option VInt VNone toSlot]
  | Inventory_pushItems toName fromSlot limit toSlot =>
      [VBytes (ser_encode toName); VInt fromSlot; from_option VInt VNone limit; from_option VInt VNone toSlot]
  | Inventory_list => []
  | WebDisplay_getURL => []
  | WebDisplay_isLinked => []
  | WebDisplay_getOwner => []
  | WebDisplay_getSize => []
  | WebDisplay_getRotation => []
  | WebDisplay_getScreenSide => []
  | WebDisplay_getResolution => []
  | WebDisplay_getScreenPos => []
  | WebDisplay_type txt => [VStr txt]
  | WebDisplay_click x y act => [VInt x; VInt y; VStr act]
  | WebDisplay_runJS src => [VStr src]
  | WebDisplay_setURL url => [VStr url]
  | WebDisplay_setRotation ang => [VInt ang]
  | WebDisplay_setResolution res_x res_y => [VInt res_x; VInt res_y]
  | NBTObserver_readState => []
  | NBTObserver_hasState arg => [VBytes arg]
  | NBTObserver_writeState state => [state]
  | NBTObserver_readNBT => []
  | NBTObserver_hasNBT nbtKey => [VBytes (Extern.str_encode_utf8 nbtKey)]
  | NBTObserver_writeNBT nbt => [VBytes (Extern.str_encode_utf8 nbt)]
  | Projector3d_write model => [model]
  | Projector3d_clear => []
  | Manipulator_getBlockMeta x y z => [VInt x; VInt y; VInt z]
  | Manipulator_sense => []
  | Manipulator_getMetaByID id => [VBytes id]
  | Manipulator_capture pattern => [VBytes (Extern.str_encode_utf8 pattern)]
  | Manipulator_clearCaptures => []
  | Manipulator_say message => [VBytes (Extern.str_encode_utf8 message)]
  | Manipulator_uncapture pattern => [VBytes (Extern.str_encode_utf8 pattern)]
  | WiredModem_getNameLocal => []
  | WiredModem_getNamesRemote => []
  | Inventory_size => []
  | Modem_isOpen channel => [VInt channel]
  | Modem_open channel => [VInt channel]
  | Modem_close channel => [VInt channel]
  | Modem_closeAll => []
  | Modem_transmit channel replyChannel message =>
      [VInt channel; VInt replyChannel; message]
  | Modem_isWireless => []
  | WiredModem_getTypeRemote peripheralName =>
      [VBytes (ser_encode peripheralName)]
  | WiredModem_isPresentRemote peripheralName =>
      [VBytes (ser_encode peripheralName)]
  end.

End Invoke.

(** Extractions for the sample hosts: anything passes as an object, and
    the scalar extractions check the shape of the one value returned. *)
Module SampleExtern.

Definition extractors : Extern.Extractors :=
  {| Extern.PyObject := value;
     Extern.take := Ok;
     Extern.take_dict := Ok;
     Extern.take_list := Ok;
     Extern.take_list_of_strings := fun _ => Raise DecodeShapeError;
     Extern.take_string :=
       fun v => match v with VBytes s => Ok s | _ => Raise DecodeShapeError end;
     Extern.take_option_int :=
       fun v => match v with
                | VNone => Ok None
                | VInt z => Ok (Some z)
                | _ => Raise DecodeShapeError
                end;
     Extern.take_option_string_bool := Ok;
     Extern.take_ints := fun _ _ => Raise DecodeShapeError;
     Extern.take_strings := fun _ _ => Raise DecodeShapeError;
     Extern.ser_nil_encode := from_option VBytes VNone;
     Extern.ser_dirty_encode := fun s => s;
     Extern.str_encode_utf8 := fun s => s |}.

End SampleExtern.

(** * Properties *)

Section Properties.
Context {env : Collaborators}.

(** ** The remote call primitive *)

Lemma eval_lua_run (code : string) (params : list value) (w : World) :
  eval_lua code params w =
    (fst (respond (mkRequest code params) (host w)),
     mkWorld (log w ++ [mkRequest code params])
             (snd (respond (mkRequest code params) (host w)))
             (feed w) (TYPE_MAP w)).
Proof.
  unfold eval_lua, set_log.
  destruct (respond (mkRequest code params) (host w)) as [r h]; reflexivity.
Qed.

Lemma _method_run (self : Peripheral) (name : string) (params : list value)
    (w : World) :
  _method self name params w =
    (fst (respond (method_request self name params) (host w)),
     mkWorld (log w ++ [method_request self name params])
             (snd (respond (method_request self name params) (host w)))
             (feed w) (TYPE_MAP w)).
Proof. unfold _method. apply eval_lua_run. Qed.

Lemma method_run (name : string) (params : list value) (w : World) :
  method name params w =
    (fst (respond (module_request name params) (host w)),
     mkWorld (log w ++ [module_request name params])
             (snd (respond (module_request name params) (host w)))
             (feed w) (TYPE_MAP w)).
Proof. unfold method, eval_lua_method_factory. apply eval_lua_run. Qed.

(** The typed operations are one call of the primitive each, followed by
    a decoder: they send the one request of their method name. *)
Lemma typed_operations_single_request (self : Peripheral) (w : World) :
  (forall c : Z,
     log (isOpen self c w).2 = log w ++ [method_request self "isOpen" [VInt c]] /\
     log (open self c w).2 = log w ++ [method_request self "open" [VInt c]] /\
     log (close self c w).2 = log w ++ [method_request self "close" [VInt c]]) /\
  log (closeAll self w).2 = log w ++ [method_request self "closeAll" []] /\
  log (isWireless self w).2 = log w ++ [method_request self "isWireless" []] /\
  log (size self w).2 = log w ++ [method_request self "size" []] /\
  (forall (c r : Z) (msg : value),
     log (transmit self c r msg w).2 =
       log w ++ [method_request self "transmit" [VInt c; VInt r; msg]]) /\
  (forall name : string,
     log (getTypeRemote self name w).2 =
       log w ++ [method_request self "getTypeRemote" [VBytes (ser_encode name)]] /\
     log (isPresentRemote self name w).2 =
       log w ++ [method_request self "isPresentRemote" [VBytes (ser_encode name)]]).
Proof.
  repeat first [apply conj | intro];
    unfold isOpen, open, close, closeAll, isWireless, size, transmit,
      getTypeRemote, isPresentRemote, bind;
    rewrite _method_run;
    destruct (fst (respond _ (host w))) as [[]|]; reflexivity.
Qed.

(** ** The registry *)

Lemma registerType_run (ptype : string) (pcls : PCls) (w : World) :
  registerType ptype pcls w =
    (Ok tt, mkWorld (log w) (host w) (feed w) (<[ptype := pcls]> (TYPE_MAP w))).
Proof. reflexivity. Qed.

(** C8: registering a kind twice leaves the constructor registered last;
    a kind has one constructor at a time; registering the same constructor
    twice is the same as registering it once; and the second registration
    alone gives the same world as both. *)
Theorem registerType_last_wins (K : string) (c1 c2 : PCls) (w : World) :
  let w1 := snd (registerType K c1 w) in
  let w2 := snd (registerType K c2 w1) in
  TYPE_MAP_getitem K w2 = (Ok c2, w2) /\
  (forall (expr : string) (prepend : list value),
     bind (TYPE_MAP_getitem K)
          (fun pcls => ret (construct pcls expr prepend)) w2 =
       (Ok (construct c2 expr prepend), w2)) /\
  (forall c : PCls, TYPE_MAP w2 !! K = Some c <-> c = c2) /\
  w2 = snd (registerType K c2 w) /\
  snd (registerType K c1 w1) = w1.
Proof.
  cbn zeta. rewrite !registerType_run. cbn [snd TYPE_MAP log host feed].
  assert (Hl : (<[K:=c2]> (<[K:=c1]> (TYPE_MAP w)) : gmap string PCls) !! K = Some c2)
    by apply lookup_insert_eq.
  repeat split.
  - unfold TYPE_MAP_getitem. cbn [TYPE_MAP]. rewrite Hl. reflexivity.
  - intros expr prepend. unfold bind, TYPE_MAP_getitem. cbn [TYPE_MAP].
    rewrite Hl. reflexivity.
  - rewrite Hl. congruence.
  - intros ->. exact Hl.
  - f_equal. apply insert_insert_eq.
  - f_equal. apply insert_insert_eq.
Qed.

(** Registration leaves every other kind as it was. *)
Lemma registerType_other (K K' : string) (c : PCls) (w : World) :
  K <> K' ->
  TYPE_MAP (snd (registerType K c w)) !! K' = TYPE_MAP w !! K'.
Proof. intros Hne. cbn. by rewrite lookup_insert_ne. Qed.

Lemma module_init_TYPE_MAP (w : World) :
  TYPE_MAP (snd (module_init w)) = list_to_map builtin_kinds.
Proof. vm_compute. reflexivity. Qed.

Lemma builtin_kinds_NoDup : NoDup (builtin_kinds.*1).
Proof. apply (bool_decide_unpack _). vm_compute. exact I. Qed.

Lemma getTypeRemote_run (self : Peripheral) (name : string) (w : World) :
  let rq := method_request self "getTypeRemote" [VBytes (ser_encode name)] in
  let w' := mkWorld (log w ++ [rq]) (snd (respond rq (host w)))
                    (feed w) (TYPE_MAP w) in
  getTypeRemote self name w =
    match fst (respond rq (host w)) with
    | Ok VNone => (Ok None, w')
    | Ok (VBytes b) => (Ok (Some (ser_decode b)), w')
    | Ok _ => (Raise DecodeShapeError, w')
    | Raise e => (Raise e, w')
    end.
Proof.
  cbn zeta. unfold getTypeRemote, bind. rewrite _method_run.
  destruct (fst (respond _ (host w))) as [[]|]; reflexivity.
Qed.

Lemma getType_run (side : string) (w : World) :
  let rq := module_request "getType" [VBytes (ser_encode side)] in
  let w' := mkWorld (log w ++ [rq]) (snd (respond rq (host w)))
                    (feed w) (TYPE_MAP w) in
  getType side w =
    match fst (respond rq (host w)) with
    | Ok VNone => (Ok None, w')
    | Ok (VBytes b) => (Ok (Some (ser_decode b)), w')
    | Ok _ => (Raise DecodeShapeError, w')
    | Raise e => (Raise e, w')
    end.
Proof.
  cbn zeta. unfold getType, bind. rewrite method_run.
  destruct (fst (respond _ (host w))) as [[]|]; reflexivity.
Qed.

(** Forwarding to a device whose kind has no constructor. *)
Lemma wrapRemote_unregistered (self : Peripheral) (name : string) (w : World)
    (b : string) (h : Host) :
  let rq := method_request self "getTypeRemote" [VBytes (ser_encode name)] in
  respond rq (host w) = (Ok (VBytes b), h) ->
  TYPE_MAP w !! ser_decode b = None ->
  wrapRemote self name w =
    (Raise (KeyError (ser_decode b)),
     mkWorld (log w ++ [rq]) h (feed w) (TYPE_MAP w)).
Proof.
  cbn zeta. intros Hr Hn. unfold wrapRemote, bind.
  rewrite getTypeRemote_run. cbn zeta. rewrite Hr. cbn [fst snd].
  unfold TYPE_MAP_getitem. cbn [TYPE_MAP]. rewrite Hn. reflexivity.
Qed.

(** C10: after the import of the module the registry holds exactly the
    twelve kinds registered one by one and the ten kinds
    "minecraft:" + k, the latter all with the inventory class; it has no
    entry for "modem", so forwarding to a far-side device that reports the
    kind "modem" raises the lookup error and builds no proxy. *)
Theorem builtin_registry_without_modem (w : World) :
  let builtin := TYPE_MAP (snd (module_init w)) in
  (forall (k : string) (c : PCls),
     builtin !! k = Some c <-> (k, c) ∈ builtin_kinds) /\
  length explicit_kinds = 12%nat /\
  length inventory_kinds = 10%nat /\
  base.size builtin = 22%nat /\
  (forall k : string, k ∈ inventory_kinds ->
     builtin !! ("minecraft:" +:+ k) = Some CCInventory) /\
  builtin !! "modem" = None /\
  forall (self : Peripheral) (name : string) (w0 : World) (b : string) (h : Host),
    let rq := method_request self "getTypeRemote" [VBytes (ser_encode name)] in
    TYPE_MAP w0 = builtin ->
    respond rq (host w0) = (Ok (VBytes b), h) ->
    ser_decode b = "modem" ->
    wrapRemote self name w0 =
      (Raise (KeyError "modem"),
       mkWorld (log w0 ++ [rq]) h (feed w0) (TYPE_MAP w0)).
Proof.
  cbn zeta. rewrite module_init_TYPE_MAP.
  assert (Hin : forall (k : string) (c : PCls),
            (list_to_map builtin_kinds : gmap string PCls) !! k = Some c
            <-> (k, c) ∈ builtin_kinds).
  { intros k c. symmetry. apply elem_of_list_to_map. apply builtin_kinds_NoDup. }
  assert (Hmodem : (list_to_map builtin_kinds : gmap string PCls) !! "modem" = None)
    by (vm_compute; reflexivity).
  split; [exact Hin|].
  split; [reflexivity|]. split; [reflexivity|].
  split; [vm_compute; reflexivity|].
  split.
  { intros k Hk. apply Hin. unfold builtin_kinds.
    apply elem_of_app. right.
    apply (list_elem_of_fmap_2 (fun k => ("minecraft:" +:+ k, CCInventory))).
    exact Hk. }
  split; [exact Hmodem|].
  intros self name w0 b h Htm Hr Hb.
  rewrite <- Hb. apply wrapRemote_unregistered; [exact Hr|].
  rewrite Htm, Hb. exact Hmodem.
Qed.

(** ** Forwarding *)

Lemma wrapRemote_registered (self : Peripheral) (name : string) (w : World)
    (b : string) (h : Host) (pcls : PCls) :
  let rq := method_request self "getTypeRemote" [VBytes (ser_encode name)] in
  respond rq (host w) = (Ok (VBytes b), h) ->
  TYPE_MAP w !! ser_decode b = Some pcls ->
  wrapRemote self name w =
    (Ok (Some (construct pcls (_lua_method_expr self)
                 (_prepend_params self ++
                  [VBytes "callRemote"; VBytes (ser_encode name)]))),
     mkWorld (log w ++ [rq]) h (feed w) (TYPE_MAP w)).
Proof.
  cbn zeta. intros Hr Hk. unfold wrapRemote, bind.
  rewrite getTypeRemote_run. cbn zeta. rewrite Hr. cbn [fst snd].
  unfold TYPE_MAP_getitem. cbn [TYPE_MAP]. rewrite Hk. reflexivity.
Qed.

Lemma wrapRemote_absent (self : Peripheral) (name : string) (w : World)
    (h : Host) :
  let rq := method_request self "getTypeRemote" [VBytes (ser_encode name)] in
  respond rq (host w) = (Ok VNone, h) ->
  wrapRemote self name w =
    (Ok None, mkWorld (log w ++ [rq]) h (feed w) (TYPE_MAP w)).
Proof.
  cbn zeta. intros Hr. unfold wrapRemote, bind. rewrite getTypeRemote_run.
  cbn zeta. rewrite Hr. reflexivity.
Qed.

(** C4: when the far-side kind query answers a kind that has a
    constructor, [wrapRemote] returns a proxy of that class whose
    prepended parameters are those of the bridge followed by the marker
    [b'callRemote'] and the encoded far-side name, and whose target
    expression is the one of the bridge, so that its requests carry the
    code of the bridge's requests; when the query answers no kind,
    [wrapRemote] returns [None].  Either way one request was sent. *)
Theorem wrapRemote_composition (self : Peripheral) (name : string) (w : World) :
  let rq := method_request self "getTypeRemote" [VBytes (ser_encode name)] in
  (forall (b : string) (h : Host) (pcls : PCls),
     respond rq (host w) = (Ok (VBytes b), h) ->
     TYPE_MAP w !! ser_decode b = Some pcls ->
     exists remote : Peripheral,
       wrapRemote self name w =
         (Ok (Some remote), mkWorld (log w ++ [rq]) h (feed w) (TYPE_MAP w)) /\
       p_class remote = pcls /\
       _prepend_params remote =
         _prepend_params self ++ [VBytes "callRemote"; VBytes (ser_encode name)] /\
       _lua_method_expr remote = _lua_method_expr self /\
       forall (op : string) (params : list value),
         method_request remote op params =
           mkRequest (req_code (method_request self op params))
             (_prepend_params self ++
              [VBytes "callRemote"; VBytes (ser_encode name)] ++
              [VBytes (ser_encode op)] ++ params)) /\
  (forall h : Host,
     respond rq (host w) = (Ok VNone, h) ->
     wrapRemote self name w =
       (Ok None, mkWorld (log w ++ [rq]) h (feed w) (TYPE_MAP w))).
Proof.
  cbn zeta. split.
  - intros b h pcls Hr Hk.
    eexists. split; [apply (wrapRemote_registered _ _ _ b h pcls Hr Hk)|].
    cbn. repeat split.
    intros op params. unfold method_request. cbn.
    by rewrite <- app_assoc.
  - intros h Hr. by apply wrapRemote_absent.
Qed.

(** ** Discovery *)

Lemma wrap_absent (side : string) (w : World) (h : Host) :
  let q := module_request "getType" [VBytes (ser_encode side)] in
  respond q (host w) = (Ok VNone, h) ->
  wrap side w = (Ok None, mkWorld (log w ++ [q]) h (feed w) (TYPE_MAP w)).
Proof.
  cbn zeta. intros Hr. unfold wrap, bind. rewrite getType_run. cbn zeta.
  rewrite Hr. reflexivity.
Qed.

Lemma wrap_modem (side : string) (w : World) (b : string) (h h' : Host)
    (wireless : bool) :
  let q := module_request "getType" [VBytes (ser_encode side)] in
  let q2 := module_request "call" [VBytes (ser_encode side); VBytes "isWireless"] in
  respond q (host w) = (Ok (VBytes b), h) ->
  ser_decode b = "modem" ->
  respond q2 h = (Ok (VBool wireless), h') ->
  wrap side w =
    (Ok (Some (construct (if wireless then CCWirelessModem else CCWiredModem)
                         "peripheral.call" [VBytes (ser_encode side)])),
     mkWorld (log w ++ [q; q2]) h' (feed w) (TYPE_MAP w)).
Proof.
  cbn zeta. intros Hr Hb Hw. unfold wrap, bind.
  rewrite getType_run. cbn zeta. rewrite Hr. cbn [fst snd].
  rewrite Hb. cbn [String.eqb Ascii.eqb Bool.eqb].
  rewrite method_run. cbn [host log feed TYPE_MAP].
  rewrite Hw. cbn [fst snd take_bool ret].
  rewrite <- app_assoc. destruct wireless; reflexivity.
Qed.

Lemma wrap_other (side : string) (w : World) (b : string) (h : Host) :
  let q := module_request "getType" [VBytes (ser_encode side)] in
  respond q (host w) = (Ok (VBytes b), h) ->
  ser_decode b <> "modem" ->
  wrap side w =
    (match TYPE_MAP w !! ser_decode b with
     | Some pcls =>
         Ok (Some (construct pcls "peripheral.call" [VBytes (ser_encode side)]))
     | None => Raise (KeyError (ser_decode b))
     end,
     mkWorld (log w ++ [q]) h (feed w) (TYPE_MAP w)).
Proof.
  cbn zeta. intros Hr Hb. unfold wrap, bind.
  rewrite getType_run. cbn zeta. rewrite Hr. cbn [fst snd].
  destruct (String.eqb_spec (ser_decode b) "modem") as [E|_]; [contradiction|].
  unfold TYPE_MAP_getitem. cbn [TYPE_MAP].
  destruct (TYPE_MAP w !! ser_decode b); reflexivity.
Qed.

(** C5: [wrap] first asks for the kind.  No kind: the result is [None]
    and nothing else is sent.  The kind "modem": exactly one more request
    asks [isWireless], and the answer picks the wireless class (true) or
    the wired class (false), whatever the registry holds.  Any other
    kind: the class comes from the registry, the lookup error if it has
    none, and nothing else is sent. *)
Theorem wrap_protocol (side : string) (w : World) :
  let q := module_request "getType" [VBytes (ser_encode side)] in
  let q2 := module_request "call" [VBytes (ser_encode side); VBytes "isWireless"] in
  let m := "peripheral.call" in
  let s := VBytes (ser_encode side) in
  (forall h : Host,
     respond q (host w) = (Ok VNone, h) ->
     wrap side w = (Ok None, mkWorld (log w ++ [q]) h (feed w) (TYPE_MAP w))) /\
  (forall (b : string) (h h' : Host) (wireless : bool),
     respond q (host w) = (Ok (VBytes b), h) ->
     ser_decode b = "modem" ->
     respond q2 h = (Ok (VBool wireless), h') ->
     wrap side w =
       (Ok (Some (construct (if wireless then CCWirelessModem else CCWiredModem)
                            m [s])),
        mkWorld (log w ++ [q; q2]) h' (feed w) (TYPE_MAP w))) /\
  (forall (b : string) (h : Host),
     respond q (host w) = (Ok (VBytes b), h) ->
     ser_decode b <> "modem" ->
     wrap side w =
       (match TYPE_MAP w !! ser_decode b with
        | Some pcls => Ok (Some (construct pcls m [s]))
        | None => Raise (KeyError (ser_decode b))
        end,
        mkWorld (log w ++ [q]) h (feed w) (TYPE_MAP w))).
Proof.
  cbn zeta. repeat split.
  - intros h Hr. by apply wrap_absent.
  - intros b h h' wireless Hr Hb Hw. by apply (wrap_modem _ _ b h).
  - intros b h Hr Hb. by apply wrap_other.
Qed.

(** C7, amended: a reported kind without a constructor makes [wrap] raise
    the lookup error for that kind unless the kind is "modem", and makes
    [wrapRemote] raise it for every kind; the outcome differs from the
    [None] that both return when no kind is reported. *)
Theorem unknown_kind_raises (w : World) :
  (forall (side b : string) (h : Host),
     respond (module_request "getType" [VBytes (ser_encode side)]) (host w)
       = (Ok (VBytes b), h) ->
     ser_decode b <> "modem" ->
     TYPE_MAP w !! ser_decode b = None ->
     fst (wrap side w) = Raise (KeyError (ser_decode b)) /\
     fst (wrap side w) <> Ok None) /\
  (forall (self : Peripheral) (name b : string) (h : Host),
     respond (method_request self "getTypeRemote" [VBytes (ser_encode name)])
             (host w) = (Ok (VBytes b), h) ->
     TYPE_MAP w !! ser_decode b = None ->
     fst (wrapRemote self name w) = Raise (KeyError (ser_decode b)) /\
     fst (wrapRemote self name w) <> Ok None) /\
  (forall (side : string) (h : Host),
     respond (module_request "getType" [VBytes (ser_encode side)]) (host w)
       = (Ok VNone, h) ->
     fst (wrap side w) = Ok None) /\
  (forall (self : Peripheral) (name : string) (h : Host),
     respond (method_request self "getTypeRemote" [VBytes (ser_encode name)])
             (host w) = (Ok VNone, h) ->
     fst (wrapRemote self name w) = Ok None).
Proof.
  repeat apply conj.
  - intros side b h Hr Hb Hn.
    rewrite (wrap_other side w b h Hr Hb), Hn. cbn [fst].
    split; [reflexivity|discriminate].
  - intros self name b h Hr Hn.
    rewrite (wrapRemote_unregistered self name w b h Hr Hn). cbn [fst].
    split; [reflexivity|discriminate].
  - intros side h Hr. by rewrite (wrap_absent side w h Hr).
  - intros self name h Hr. by rewrite (wrapRemote_absent self name w h Hr).
Qed.

(** ** The subscription *)

Lemma isOpen_run (self : Peripheral) (c : Z) (w : World) :
  let rq := isOpen_request self c in
  let w' := mkWorld (log w ++ [rq]) (snd (respond rq (host w)))
                    (feed w) (TYPE_MAP w) in
  isOpen self c w =
    match fst (respond rq (host w)) with
    | Ok (VBool b) => (Ok b, w')
    | Ok _ => (Raise DecodeShapeError, w')
    | Raise e => (Raise e, w')
    end.
Proof.
  cbn zeta. unfold isOpen, bind. rewrite _method_run.
  fold (isOpen_request self c).
  destruct (fst (respond _ (host w))) as [[]|]; reflexivity.
Qed.

Lemma open_run (self : Peripheral) (c : Z) (w : World) :
  let rq := open_request self c in
  let w' := mkWorld (log w ++ [rq]) (snd (respond rq (host w)))
                    (feed w) (TYPE_MAP w) in
  open self c w =
    match fst (respond rq (host w)) with
    | Ok VNone => (Ok tt, w')
    | Ok _ => (Raise DecodeShapeError, w')
    | Raise e => (Raise e, w')
    end.
Proof.
  cbn zeta. unfold open, bind. rewrite _method_run.
  fold (open_request self c).
  destruct (fst (respond _ (host w))) as [[]|]; reflexivity.
Qed.

Lemma close_run (self : Peripheral) (c : Z) (w : World) :
  let rq := close_request self c in
  let w' := mkWorld (log w ++ [rq]) (snd (respond rq (host w)))
                    (feed w) (TYPE_MAP w) in
  close self c w =
    match fst (respond rq (host w)) with
    | Ok VNone => (Ok tt, w')
    | Ok _ => (Raise DecodeShapeError, w')
    | Raise e => (Raise e, w')
    end.
Proof.
  cbn zeta. unfold close, bind. rewrite _method_run.
  fold (close_request self c).
  destruct (fst (respond _ (host w))) as [[]|]; reflexivity.
Qed.

(** The busy check passed and the open call returned: two requests were
    sent, the events to come and the registry are as before. *)
Lemma handshake_ok (self : Peripheral) (c : Z) (w w1 : World) :
  handshake self c w = (Ok tt, w1) ->
  log w1 = log w ++ [isOpen_request self c; open_request self c] /\
  feed w1 = feed w /\ TYPE_MAP w1 = TYPE_MAP w.
Proof.
  unfold handshake, bind. rewrite isOpen_run. cbn zeta.
  destruct (fst (respond _ (host w))) as [[| [] | | |]|]; try discriminate.
  rewrite open_run. cbn zeta. cbn [host log feed TYPE_MAP].
  destruct (fst (respond (open_request self c) _)) as [[]|]; try discriminate.
  intros [= <-]. cbn. rewrite <- app_assoc. done.
Qed.

(** The first request of the handshake is always the status query. *)
Lemma handshake_log (self : Peripheral) (c : Z) (w : World) :
  exists rest : list Request,
    log (snd (handshake self c w)) = log w ++ isOpen_request self c :: rest.
Proof.
  unfold handshake, bind. rewrite isOpen_run. cbn zeta.
  destruct (fst (respond _ (host w))) as [[| [] | | |]|];
    try (by exists []).
  rewrite open_run. cbn zeta. cbn [host log feed TYPE_MAP].
  exists [open_request self c].
  destruct (fst (respond (open_request self c) _)) as [[]|];
    cbn; by rewrite <- app_assoc.
Qed.

Lemma run_finally_spec {A} (g : Generator) (pending : Result A) (w : World) :
  exists (r : Result A) (w' : World),
    run_finally g pending w = (r, with_state GFinished g, w') /\
    log w' = log w ++ [close_request (gen_self g) (gen_channel g)] /\
    feed w' = feed w /\
    (forall e : Exn, pending = Raise e -> exists e' : Exn, r = Raise e').
Proof.
  unfold run_finally. rewrite close_run. cbn zeta.
  destruct (fst (respond _ (host w))) as [[]|];
    eexists _, _; (split; [reflexivity|]); cbn; repeat split; eauto.
Qed.

(** Running the body up to the next [yield] either delivers a message and
    sends nothing, or ends the generator after exactly one close call. *)
Lemma resume_spec (g : Generator) (w : World) :
  exists (r : Result ModemMessage) (st : GenState) (w' : World),
    resume g w = (r, with_state st g, w') /\
    ((exists msg, r = Ok msg /\ st = GSuspended /\ log w' = log w) \/
     (exists e, r = Raise e /\ st = GFinished /\
        log w' = log w ++ [close_request (gen_self g) (gen_channel g)])).
Proof.
  unfold resume.
  destruct (receive_for (gen_self g) (gen_channel g) (feed w)) as [[msg| |e] rest].
  - eexists _, _, _. split; [reflexivity|]. left. eauto.
  - destruct (run_finally_spec g (Raise StopIteration : Result ModemMessage)
                (set_feed rest w)) as (r & w' & -> & Hl & _ & Hr).
    destruct (Hr _ eq_refl) as [e' ->].
    eexists _, _, _. split; [reflexivity|]. right. eauto.
  - destruct (run_finally_spec g (Raise e : Result ModemMessage)
                (set_feed rest w)) as (r & w' & -> & Hl & _ & Hr).
    destruct (Hr _ eq_refl) as [e' ->].
    eexists _, _, _. split; [reflexivity|]. right. eauto.
Qed.

Lemma reserved_inv_resume (self : Peripheral) (c : Z) (w1 : World)
    (g : Generator) (w : World) :
  gen_self g = self -> gen_channel g = c -> log w = log w1 ->
  reserved_inv self c w1 (resume g w).1.2 (resume g w).2.
Proof.
  intros Hs Hc Hl.
  destruct (resume_spec g w) as (r & st & w' & -> & [(m & _ & -> & Hw)|(e & _ & -> & Hw)]);
    cbn [fst snd]; (split; [exact Hs|]); (split; [exact Hc|]).
  - left. split; [reflexivity | congruence].
  - right. split; [reflexivity|]. rewrite Hw, Hl, Hs, Hc. reflexivity.
Qed.

Lemma reserved_inv_act (self : Peripheral) (c : Z) (w1 : World) (a : Action)
    (g : Generator) (w : World) :
  reserved_inv self c w1 g w ->
  reserved_inv self c w1 (act a g w).1.2 (act a g w).2.
Proof.
  intros (Hs & Hc & [[Hst Hl]|[Hst Hl]]).
  - (* suspended at the yield *)
    destruct a as [| |e]; unfold act.
    + unfold gen_next. rewrite Hst.
      pose proof (reserved_inv_resume self c w1 g w Hs Hc Hl) as Hinv.
      destruct (resume g w) as [[[m|e] g'] w']; exact Hinv.
    + unfold gen_close. rewrite Hst.
      destruct (run_finally_spec g (Ok tt) w) as (r & w' & -> & Hw & _).
      cbn [fst snd]. split; [exact Hs|]. split; [exact Hc|].
      right. split; [reflexivity|]. rewrite Hw, Hl, Hs, Hc. reflexivity.
    + unfold gen_throw. rewrite Hst.
      destruct (run_finally_spec g (Raise (escaping e) : Result unit) w)
        as (r & w' & -> & Hw & _).
      cbn [fst snd]. split; [exact Hs|]. split; [exact Hc|].
      right. split; [reflexivity|]. rewrite Hw, Hl, Hs, Hc. reflexivity.
  - (* already finished: nothing runs *)
    assert (Hfin : reserved_inv self c w1 g w) by (split; [|split]; auto).
    destruct a as [| |e]; unfold act, gen_next, gen_close, gen_throw;
      rewrite Hst; exact Hfin.
Qed.

Lemma reserved_inv_drive (self : Peripheral) (c : Z) (w1 : World)
    (acts : list Action) :
  forall (g : Generator) (w : World),
    reserved_inv self c w1 g w ->
    reserved_inv self c w1 (drive acts g w).1.2 (drive acts g w).2.
Proof.
  induction acts as [|a acts IH]; intros g w Hinv; [exact Hinv|].
  cbn [drive].
  pose proof (reserved_inv_act self c w1 a g w Hinv) as Hstep.
  destruct (act a g w) as [[m g1] wa]. cbn [fst snd] in Hstep.
  specialize (IH g1 wa Hstep).
  destruct (drive acts g1 wa) as [[ms g2] w2]. exact IH.
Qed.

Lemma reserved_inv_closed_once (self : Peripheral) (c : Z) (w1 : World)
    (g : Generator) (w : World) :
  reserved_inv self c w1 g w -> closed_once self c w1 g w.
Proof.
  intros (_ & _ & [[Hst Hl]|[Hst Hl]]); unfold closed_once, issued_since;
    rewrite Hst, Hl.
  - rewrite <- (app_nil_r (log w1)) at 2. by rewrite drop_app_length.
  - by rewrite drop_app_length.
Qed.

Lemma drive_cons (a : Action) (acts : list Action) (g : Generator) (w : World) :
  drive (a :: acts) g w =
    (option_list (act a g w).1.1 ++ (drive acts (act a g w).1.2 (act a g w).2).1.1,
     (drive acts (act a g w).1.2 (act a g w).2).1.2,
     (drive acts (act a g w).1.2 (act a g w).2).2).
Proof.
  cbn [drive]. destruct (act a g w) as [[m g1] wa]. cbn [fst snd].
  destruct (drive acts g1 wa) as [[ms g2] w2]. reflexivity.
Qed.

(** The first advance of a generator whose handshake succeeds. *)
Lemma act_first_next (g : Generator) (w w1 : World) :
  gen_state g = GCreated ->
  handshake (gen_self g) (gen_channel g) w = (Ok tt, w1) ->
  (act ANext g w).1.2 = (resume g w1).1.2 /\
  (act ANext g w).2 = (resume g w1).2 /\
  (act ANext g w).1.1 =
    match (resume g w1).1.1 with Ok msg => Some msg | Raise _ => None end.
Proof.
  intros Hst Hhs. unfold act, gen_next. rewrite Hst, Hhs.
  destruct (resume g w1) as [[[m|e] g1] wa]; done.
Qed.

(** An action that delivers no message leaves the generator finished. *)
Lemma act_ends (a : Action) (g : Generator) (w : World) :
  gen_state g <> GFinished ->
  (act a g w).1.1 = None ->
  gen_state (act a g w).1.2 = GFinished.
Proof.
  intros Hlive. destruct a as [| |e]; unfold act.
  - unfold gen_next. destruct (gen_state g) eqn:Hst; [| |done].
    + destruct (handshake (gen_self g) (gen_channel g) w) as [[[]|e] w']; [|done].
      destruct (resume_spec g w') as (r & st & w2 & -> & [(m & -> & _)|(e & -> & -> & _)]);
        [discriminate|done].
    + destruct (resume_spec g w) as (r & st & w2 & -> & [(m & -> & _)|(e & -> & -> & _)]);
        [discriminate|done].
  - intros _. unfold gen_close. destruct (gen_state g) eqn:Hst; [done| |done].
    by destruct (run_finally_spec g (Ok tt) w) as (r & w' & -> & _).
  - intros _. unfold gen_throw. destruct (gen_state g) eqn:Hst; [done| |done].
    by destruct (run_finally_spec g (Raise (escaping e) : Result unit) w)
      as (r & w' & -> & _).
Qed.

(** C1, amended: once the busy check has passed and the open call has
    returned without an error,
    whatever the consumer does next (advance, close or drop the generator,
    throw into it) and whatever the events to come are, as long as the
    subscription is live no request has been sent since the open call, and
    once it has ended exactly one request has, the close call.  It ends
    with any action that delivers no message: exhaustion, an error raised
    in the loop, a close or a throw. *)
Theorem receive_closes_exactly_once (self : Peripheral) (c : Z)
    (w w0 w1 : World) (g : Generator) (acts : list Action) :
  receive self c w = (Ok g, w0) ->
  handshake self c w0 = (Ok tt, w1) ->
  let run := drive (ANext :: acts) g w0 in
  closed_once self c w1 run.1.2 run.2 /\
  forall a : Action,
    (act a run.1.2 run.2).1.1 = None ->
    gen_state (act a run.1.2 run.2).1.2 = GFinished /\
    issued_since w1 (act a run.1.2 run.2).2 = [close_request self c].
Proof.
  intros Hrecv Hhs. cbn zeta.
  unfold receive, ret in Hrecv. injection Hrecv as <- <-.
  assert (Hinv : reserved_inv self c w1
            (drive (ANext :: acts) (mkGenerator self c GCreated) w).1.2
            (drive (ANext :: acts) (mkGenerator self c GCreated) w).2).
  { rewrite drive_cons. cbn [fst snd].
    destruct (act_first_next (mkGenerator self c GCreated) w w1 eq_refl Hhs)
      as (-> & -> & _).
    apply reserved_inv_drive. by apply reserved_inv_resume. }
  split; [by apply reserved_inv_closed_once|].
  intros a Hnone.
  pose proof (reserved_inv_act self c w1 a _ _ Hinv) as Hnext.
  destruct Hinv as (_ & _ & [[Hst _]|[Hst _]]).
  - assert (Hend := act_ends a _ _ ltac:(rewrite Hst; discriminate) Hnone).
    split; [exact Hend|].
    apply reserved_inv_closed_once in Hnext. unfold closed_once in Hnext.
    by rewrite Hend in Hnext.
  - assert (Hend : gen_state (act a (drive (ANext :: acts) (mkGenerator self c GCreated) w).1.2
                               (drive (ANext :: acts) (mkGenerator self c GCreated) w).2).1.2
                   = GFinished).
    { destruct a as [| |e]; unfold act, gen_next, gen_close, gen_throw;
        rewrite Hst; exact Hst. }
    split; [exact Hend|].
    apply reserved_inv_closed_once in Hnext. unfold closed_once in Hnext.
    by rewrite Hend in Hnext.
Qed.

(** When the open call itself raises, the body is left before the [try]
    block: the generator is finished and no close call is sent. *)
Lemma receive_open_raises (self : Peripheral) (c : Z) (w : World)
    (h h' : Host) (e : Exn) :
  respond (isOpen_request self c) (host w) = (Ok (VBool false), h) ->
  respond (open_request self c) h = (Raise e, h') ->
  gen_next (mkGenerator self c GCreated) w =
    (Raise e, mkGenerator self c GFinished,
     mkWorld (log w ++ [isOpen_request self c; open_request self c]) h'
             (feed w) (TYPE_MAP w)).
Proof.
  intros Hfree Hopen. unfold gen_next, handshake, bind.
  cbn [gen_state gen_self gen_channel].
  rewrite isOpen_run. cbn zeta. rewrite Hfree. cbn [fst snd].
  rewrite open_run. cbn zeta. cbn [host log feed TYPE_MAP].
  rewrite Hopen. cbn [fst snd]. by rewrite <- app_assoc.
Qed.

(** C2: when the status query answers that the channel is open, the
    first advance of the subscription raises [Exception('Channel is busy')];
    the status query is the only request sent, so there is no open call,
    and the host is in the state in which the query left it. *)
Theorem receive_busy (self : Peripheral) (c : Z) (w w0 : World)
    (g : Generator) (h : Host) :
  receive self c w = (Ok g, w0) ->
  respond (isOpen_request self c) (host w0) = (Ok (VBool true), h) ->
  gen_next g w0 =
    (Raise (PyException "Channel is busy"),
     with_state GFinished g,
     mkWorld (log w0 ++ [isOpen_request self c]) h (feed w0) (TYPE_MAP w0)) /\
  issued_since w0 (gen_next g w0).2 = [isOpen_request self c].
Proof.
  intros Hrecv Hbusy.
  unfold receive, ret in Hrecv. injection Hrecv as <- <-.
  assert (Hnext : gen_next (mkGenerator self c GCreated) w =
    (Raise (PyException "Channel is busy"),
     with_state GFinished (mkGenerator self c GCreated),
     mkWorld (log w ++ [isOpen_request self c]) h (feed w) (TYPE_MAP w))).
  { unfold gen_next, handshake, bind. cbn [gen_state gen_self gen_channel].
    rewrite isOpen_run. cbn zeta. rewrite Hbusy. reflexivity. }
  split; [exact Hnext|].
  rewrite Hnext. unfold issued_since. cbn [snd log].
  by rewrite drop_app_length.
Qed.

(** C9: the call [receive(channel)] returns a generator that has not
    started and leaves the world as it is; dropping that generator sends
    nothing either.  The first advance is what sends the status query,
    and, when the query answers that the channel is not open, the open
    call right after it. *)
Theorem receive_is_lazy (self : Peripheral) (c : Z) (w : World) :
  exists g : Generator,
    receive self c w = (Ok g, w) /\
    gen_state g = GCreated /\ gen_self g = self /\ gen_channel g = c /\
    gen_close g w = (Ok tt, with_state GFinished g, w) /\
    (exists rest : list Request,
       log (gen_next g w).2 = log w ++ isOpen_request self c :: rest) /\
    (forall h : Host,
       respond (isOpen_request self c) (host w) = (Ok (VBool false), h) ->
       exists rest : list Request,
         log (gen_next g w).2 =
           log w ++ isOpen_request self c :: open_request self c :: rest).
Proof.
  exists (mkGenerator self c GCreated).
  repeat (split; [reflexivity|]).
  assert (Hresume : forall w1 : World, exists tail : list Request,
            log (resume (mkGenerator self c GCreated) w1).2 = log w1 ++ tail).
  { intros w1.
    destruct (resume_spec (mkGenerator self c GCreated) w1)
      as (r & st & w' & -> & [(m & _ & _ & Hl)|(e & _ & _ & Hl)]);
      cbn [snd]; rewrite Hl.
    - exists []. by rewrite app_nil_r.
    - eauto. }
  split.
  - unfold gen_next. cbn [gen_state gen_self gen_channel].
    destruct (handshake_log self c w) as [rest Hlog].
    destruct (handshake self c w) as [[[]|e] w1]; cbn [snd] in *.
    + destruct (Hresume w1) as [tail ->]. rewrite Hlog.
      exists (rest ++ tail). by rewrite <- app_assoc.
    + eauto.
  - intros h Hfree. unfold gen_next, handshake, bind.
    cbn [gen_state gen_self gen_channel].
    rewrite isOpen_run. cbn zeta. rewrite Hfree. cbn [fst snd].
    rewrite open_run. cbn zeta. cbn [host log feed TYPE_MAP].
    destruct (fst (respond (open_request self c) h)) as [[]|];
      try (cbn [snd log]; exists []; by rewrite <- app_assoc).
    match goal with |- context [resume ?g ?w1] => destruct (Hresume w1) as [tail ->] end.
    cbn [log]. exists tail. by rewrite <- !app_assoc.
Qed.

(** ** Filtering *)

Section Filtering.
Variables (self : Peripheral) (c : Z) (side : value).
Hypothesis Hside : _side self = Ok side.

Lemma receive_for_miss (e : InboundEvent) (evs : list InboundEvent) :
  spec_matches side c e = false ->
  receive_for self c (inbound (e :: evs)) = receive_for self c (inbound evs).
Proof.
  unfold spec_matches. intros Hm. cbn. rewrite Hside. unfold py_ne.
  destruct (py_eq (ev_side e) side); [|reflexivity].
  cbn in Hm. by rewrite Hm.
Qed.

Lemma receive_for_hit (e : InboundEvent) (evs : list InboundEvent) :
  spec_matches side c e = true ->
  receive_for self c (inbound (e :: evs)) = (Yield (spec_message e), inbound evs).
Proof.
  unfold spec_matches. intros [H0 H1]%andb_true_iff.
  cbn. rewrite Hside. unfold py_ne. by rewrite H0, H1.
Qed.

Lemma spec_subscription_cons (e : InboundEvent) (evs : list InboundEvent) :
  spec_subscription side c (e :: evs) =
    if spec_matches side c e then spec_message e :: spec_subscription side c evs
    else spec_subscription side c evs.
Proof.
  unfold spec_subscription.
  destruct (spec_matches side c e) eqn:Hm.
  - by rewrite filter_cons_True.
  - rewrite filter_cons_False; [done|]. by rewrite Hm.
Qed.

Lemma spec_subscription_app (xs ys : list InboundEvent) :
  spec_subscription side c (xs ++ ys) =
    spec_subscription side c xs ++ spec_subscription side c ys.
Proof. unfold spec_subscription. by rewrite filter_app, map_app. Qed.

(** The loop stops at the first matching event and has dropped the events
    before it; without a matching event it uses up the feed. *)
Lemma receive_for_inbound (evs : list InboundEvent) :
  (exists pre e post,
     evs = pre ++ e :: post /\
     spec_subscription side c pre = [] /\
     spec_matches side c e = true /\
     receive_for self c (inbound evs) = (Yield (spec_message e), inbound post)) \/
  (spec_subscription side c evs = [] /\
   receive_for self c (inbound evs) = (Exhausted, [])).
Proof.
  induction evs as [|e evs IH]; [by right|].
  destruct (spec_matches side c e) eqn:Hm.
  - left. exists [], e, evs. repeat split; [done|]. by apply receive_for_hit.
  - rewrite receive_for_miss by done.
    destruct IH as [(pre & e' & post & -> & Hpre & He' & Hrun)|[Hnone Hrun]].
    + left. exists (e :: pre), e', post. repeat split; [|done|done].
      by rewrite spec_subscription_cons, Hm.
    + right. split; [|done]. by rewrite spec_subscription_cons, Hm.
Qed.

Lemma resume_inbound (g : Generator) (w : World) (evs : list InboundEvent) :
  gen_self g = self -> gen_channel g = c -> feed w = inbound evs ->
  (exists pre e post,
     evs = pre ++ e :: post /\
     spec_subscription side c pre = [] /\
     spec_matches side c e = true /\
     resume g w =
       (Ok (spec_message e), with_state GSuspended g, set_feed (inbound post) w)) \/
  (spec_subscription side c evs = [] /\
   exists (e : Exn) (w' : World),
     resume g w = (Raise e, with_state GFinished g, w') /\ feed w' = []).
Proof.
  intros Hs Hc Hf. unfold resume. rewrite Hs, Hc, Hf.
  destruct (receive_for_inbound evs)
    as [(pre & e & post & -> & Hpre & He & ->)|[Hnone ->]].
  - left. by exists pre, e, post.
  - right. split; [done|].
    destruct (run_finally_spec g (Raise StopIteration : Result ModemMessage)
                (set_feed [] w)) as (r & w' & -> & _ & Hfeed & Hr).
    destruct (Hr _ eq_refl) as [e' ->]. by exists e', w'.
Qed.

Lemma drive_nexts_finished (n : nat) (g : Generator) (w : World) :
  gen_state g = GFinished -> drive (replicate n ANext) g w = ([], g, w).
Proof.
  intros Hst. induction n as [|n IH]; [done|].
  cbn [replicate drive]. unfold act, gen_next. rewrite Hst. by rewrite IH.
Qed.

(** [n] advances of a suspended subscription. *)
Lemma drive_nexts_suspended (n : nat) :
  forall (evs : list InboundEvent) (g : Generator) (w : World),
    gen_self g = self -> gen_channel g = c -> gen_state g = GSuspended ->
    feed w = inbound evs ->
    let run := drive (replicate n ANext) g w in
    run.1.1 = take n (spec_subscription side c evs) /\
    exists consumed remaining : list InboundEvent,
      evs = consumed ++ remaining /\
      feed run.2 = inbound remaining /\
      run.1.1 = spec_subscription side c consumed /\
      ((length (spec_subscription side c evs) < n)%nat ->
       remaining = [] /\ gen_state run.1.2 = GFinished).
Proof.
  induction n as [|n IH]; intros evs g w Hs Hc Hst Hf; cbn zeta.
  - cbn. split; [done|]. exists [], evs. repeat split; try done; lia.
  - cbn [replicate]. rewrite drive_cons.
    assert (Hact : act ANext g w =
              (match (resume g w).1.1 with Ok m => Some m | Raise _ => None end,
               (resume g w).1.2, (resume g w).2)).
    { unfold act, gen_next. rewrite Hst.
      by destruct (resume g w) as [[[m|e] g1] w1]. }
    rewrite Hact. cbn [fst snd].
    destruct (resume_inbound g w evs Hs Hc Hf)
      as [(pre & e & post & -> & Hpre & He & ->)|(Hnone & e & w' & -> & Hfeed)];
      cbn [fst snd option_list].
    + destruct (IH post (with_state GSuspended g) (set_feed (inbound post) w)
                  Hs Hc eq_refl eq_refl)
        as (Hmsgs & consumed & remaining & -> & Hrem & Hcons & Hend).
      rewrite spec_subscription_app, Hpre, spec_subscription_cons, He.
      cbn [app take]. split; [by rewrite Hmsgs|].
      exists (pre ++ e :: consumed), remaining.
      split; [by rewrite <- app_assoc|]. split; [exact Hrem|]. split.
      * rewrite spec_subscription_app, Hpre, spec_subscription_cons, He.
        cbn [app]. by rewrite Hcons.
      * cbn [length]. intros Hlen. apply Hend. lia.
    + rewrite drive_nexts_finished by done. cbn [fst snd app].
      rewrite Hnone. split; [done|].
      exists evs, []. rewrite app_nil_r. repeat split; done.
Qed.

End Filtering.

(** C3: on a stream of well-formed events, the messages a subscription
    on a proxy of side [side] and channel [c] delivers in [n] advances are
    the first [n] of the events whose side equals [side] and whose channel
    equals [c], in arrival order, each as the message of its reply
    channel, payload and distance.  The events used up are a prefix of the
    stream whose matching events are exactly the delivered messages; the
    events to come are the rest, untouched.  Asked for more messages than
    there are matching events, the subscription uses up the stream and
    ends. *)
Theorem receive_filters (self : Peripheral) (c : Z) (side : value)
    (w w0 w1 : World) (g : Generator) (evs : list InboundEvent) (n : nat) :
  receive self c w = (Ok g, w0) ->
  _side self = Ok side ->
  handshake self c w0 = (Ok tt, w1) ->
  feed w0 = inbound evs ->
  let run := drive (replicate n ANext) g w0 in
  run.1.1 = take n (spec_subscription side c evs) /\
  exists consumed remaining : list InboundEvent,
    evs = consumed ++ remaining /\
    feed run.2 = inbound remaining /\
    run.1.1 = spec_subscription side c consumed /\
    ((length (spec_subscription side c evs) < n)%nat ->
     remaining = [] /\ gen_state run.1.2 = GFinished).
Proof.
  intros Hrecv Hside Hhs Hfeed. cbn zeta.
  unfold receive, ret in Hrecv. injection Hrecv as <- <-.
  destruct n as [|n].
  - cbn. split; [done|]. exists [], evs. repeat split; try done; lia.
  - destruct (handshake_ok self c w w1 Hhs) as (_ & Hf1 & _).
    assert (Hfirst : drive (replicate (S n) ANext) (mkGenerator self c GCreated) w =
                     drive (replicate (S n) ANext) (mkGenerator self c GSuspended) w1).
    { assert (Hact : act ANext (mkGenerator self c GCreated) w =
                       act ANext (mkGenerator self c GSuspended) w1).
      { unfold act, gen_next. cbn [gen_state gen_self gen_channel].
        rewrite Hhs. reflexivity. }
      cbn [replicate drive]. by rewrite Hact. }
    rewrite Hfirst.
    apply (drive_nexts_suspended self c side Hside (S n) evs
             (mkGenerator self c GSuspended) w1); try done.
    by rewrite Hf1.
Qed.

End Properties.

(** * Further properties *)

Section Further.
Context {env : Collaborators}.

(** ** Registry and discovery *)

(** X1: registrations of two different kinds do not interfere: the first
    keeps its constructor when the second is registered, and the order
    of the two registrations does not matter. *)
Theorem registerType_independent (K1 K2 : string) (c1 c2 : PCls) (w : World) :
  K1 <> K2 ->
  let w12 := (registerType K2 c2 (registerType K1 c1 w).2).2 in
  let w21 := (registerType K1 c1 (registerType K2 c2 w).2).2 in
  TYPE_MAP_getitem K1 w12 = (Ok c1, w12) /\
  TYPE_MAP_getitem K2 w12 = (Ok c2, w12) /\
  w12 = w21.
Proof.
  intros Hne. cbn zeta. rewrite !registerType_run.
  cbn [snd TYPE_MAP log host feed]. unfold TYPE_MAP_getitem. cbn [TYPE_MAP].
  rewrite lookup_insert_ne by congruence.
  rewrite !lookup_insert_eq. repeat split.
  f_equal. by apply insert_insert_ne.
Qed.

(** X2: a kind registered by a third party is found by discovery: after
    [registerType(K, c)] with [K] other than "modem", [wrap] on a side
    that reports [K] returns a proxy of class [c] on the target
    [peripheral.call] with the encoded side as its only prepended
    parameter, after one request. *)
Theorem wrap_after_registerType (K : string) (c : PCls) (side b : string)
    (w : World) (h : Host) :
  let q := module_request "getType" [VBytes (ser_encode side)] in
  respond q (host w) = (Ok (VBytes b), h) ->
  ser_decode b = K ->
  K <> "modem" ->
  wrap side (registerType K c w).2 =
    (Ok (Some (construct c "peripheral.call" [VBytes (ser_encode side)])),
     mkWorld (log w ++ [q]) h (feed w) (<[K := c]> (TYPE_MAP w))).
Proof.
  cbn zeta. intros Hr Hb Hne. rewrite registerType_run. cbn [snd].
  rewrite (wrap_other side _ b h); cbn [host log feed TYPE_MAP];
    [|exact Hr|congruence].
  rewrite Hb. by rewrite lookup_insert_eq.
Qed.

(** X3: [wrap] never reads the registry entry of "modem": registering a
    constructor for "modem" changes neither its result nor the requests
    it sends, on any side and any host. *)
Theorem wrap_ignores_modem_entry (c : PCls) (side : string) (w : World) :
  (wrap side (registerType "modem" c w).2).1 = (wrap side w).1 /\
  log (wrap side (registerType "modem" c w).2).2 = log (wrap side w).2 /\
  host (wrap side (registerType "modem" c w).2).2 = host (wrap side w).2.
Proof.
  rewrite registerType_run. cbn [snd]. unfold wrap, bind.
  rewrite !getType_run. cbn zeta. cbn [host log feed TYPE_MAP].
  destruct (fst (respond _ (host w))) as [[| | |b|]|]; try done.
  destruct (String.eqb_spec (ser_decode b) "modem") as [E|Hne].
  - rewrite !method_run. cbn [host log feed TYPE_MAP fst snd].
    destruct (fst (respond _ _)) as [[| [] | | |]|]; done.
  - unfold TYPE_MAP_getitem. cbn [TYPE_MAP].
    rewrite lookup_insert_ne by congruence.
    destruct (TYPE_MAP w !! ser_decode b); done.
Qed.

(** X4: forwarding does read it: after [registerType(K, c)], for any
    kind [K], "modem" included, [wrapRemote] to a far-side device that
    reports [K] returns a proxy of class [c] with the forwarding
    parameters appended. *)
Theorem wrapRemote_after_registerType (K : string) (c : PCls)
    (self : Peripheral) (name b : string) (w : World) (h : Host) :
  let rq := method_request self "getTypeRemote" [VBytes (ser_encode name)] in
  respond rq (host w) = (Ok (VBytes b), h) ->
  ser_decode b = K ->
  wrapRemote self name (registerType K c w).2 =
    (Ok (Some (construct c (_lua_method_expr self)
                 (_prepend_params self ++
                  [VBytes "callRemote"; VBytes (ser_encode name)]))),
     mkWorld (log w ++ [rq]) h (feed w) (<[K := c]> (TYPE_MAP w))).
Proof.
  cbn zeta. intros Hr Hb. rewrite registerType_run. cbn [snd].
  rewrite (wrapRemote_registered self name _ b h c);
    cbn [host log feed TYPE_MAP]; [done|exact Hr|].
  rewrite Hb. by rewrite lookup_insert_eq.
Qed.

(** X5: [wrap] sends the kind query and at most the wireless query after
    it, and changes neither the registry nor the events to come,
    whatever the host answers. *)
Theorem wrap_frame (side : string) (w : World) :
  let q := module_request "getType" [VBytes (ser_encode side)] in
  let q2 := module_request "call" [VBytes (ser_encode side); VBytes "isWireless"] in
  TYPE_MAP (wrap side w).2 = TYPE_MAP w /\
  feed (wrap side w).2 = feed w /\
  (log (wrap side w).2 = log w ++ [q] \/
   log (wrap side w).2 = log w ++ [q; q2]).
Proof.
  cbn zeta. unfold wrap, bind. rewrite getType_run. cbn zeta.
  destruct (fst (respond _ (host w))) as [[| | |b|]|];
    try (repeat split; by left).
  cbn [fst snd].
  destruct (String.eqb_spec (ser_decode b) "modem") as [E|Hne].
  - rewrite method_run. cbn [host log feed TYPE_MAP fst snd].
    rewrite <- app_assoc. cbn [app].
    destruct (fst (respond _ _)) as [[| [] | | |]|]; repeat split; by right.
  - unfold TYPE_MAP_getitem. cbn [TYPE_MAP].
    destruct (TYPE_MAP w !! ser_decode b); repeat split; by left.
Qed.

(** X6: [wrapRemote] sends exactly one request, the far-side kind
    query, and changes neither the registry nor the events to come,
    whatever the host answers and whether or not it returns a proxy. *)
Theorem wrapRemote_frame (self : Peripheral) (name : string) (w : World) :
  TYPE_MAP (wrapRemote self name w).2 = TYPE_MAP w /\
  feed (wrapRemote self name w).2 = feed w /\
  log (wrapRemote self name w).2 =
    log w ++ [method_request self "getTypeRemote" [VBytes (ser_encode name)]].
Proof.
  unfold wrapRemote, bind. rewrite getTypeRemote_run. cbn zeta.
  destruct (fst (respond _ (host w))) as [[| | |b|]|]; try done.
  cbn [fst snd]. unfold TYPE_MAP_getitem. cbn [TYPE_MAP].
  destruct (TYPE_MAP w !! ser_decode b); done.
Qed.

(** X7: the result [None] means that no kind was reported, and nothing
    else: [wrap] and [wrapRemote] return [None] exactly when the kind
    query answered [None]; a failed or ill-shaped answer is never turned
    into absence. *)
Theorem absence_only_when_unreported (w : World) :
  (forall side : string,
     (wrap side w).1 = Ok None <->
     (respond (module_request "getType" [VBytes (ser_encode side)]) (host w)).1
       = Ok VNone) /\
  (forall (self : Peripheral) (name : string),
     (wrapRemote self name w).1 = Ok None <->
     (respond (method_request self "getTypeRemote" [VBytes (ser_encode name)])
              (host w)).1 = Ok VNone).
Proof.
  split.
  - intros side. unfold wrap, bind. rewrite getType_run. cbn zeta.
    destruct (fst (respond _ (host w))) as [[| | |b|]|]; try done.
    cbn [fst snd].
    destruct (String.eqb_spec (ser_decode b) "modem") as [E|Hne].
    + rewrite method_run. cbn [host log feed TYPE_MAP fst snd].
      destruct (fst (respond _ _)) as [[| [] | | |]|]; done.
    + unfold TYPE_MAP_getitem. cbn [TYPE_MAP].
      destruct (TYPE_MAP w !! ser_decode b); done.
  - intros self name. unfold wrapRemote, bind. rewrite getTypeRemote_run.
    cbn zeta.
    destruct (fst (respond _ (host w))) as [[| | |b|]|]; try done.
    cbn [fst snd]. unfold TYPE_MAP_getitem. cbn [TYPE_MAP].
    destruct (TYPE_MAP w !! ser_decode b); done.
Qed.

(** ** Forwarding *)

(** X8: forwarding composes: when the first far-side device is itself
    resolved to a wired modem, [wrapRemote] on the proxy returned by
    [wrapRemote] works the same way, and the second proxy carries both
    forwarding pairs, in order, on the target of the first bridge.  Two
    requests were sent, the second one already routed through the
    first forwarding pair. *)
Theorem wrapRemote_twice (self : Peripheral) (n1 n2 b1 b2 : string)
    (c2 : PCls) (w : World) (h1 h2 : Host) :
  let hop1 :=
    construct CCWiredModem (_lua_method_expr self)
      (_prepend_params self ++ [VBytes "callRemote"; VBytes (ser_encode n1)]) in
  let rq1 := method_request self "getTypeRemote" [VBytes (ser_encode n1)] in
  let rq2 := method_request hop1 "getTypeRemote" [VBytes (ser_encode n2)] in
  respond rq1 (host w) = (Ok (VBytes b1), h1) ->
  TYPE_MAP w !! ser_decode b1 = Some CCWiredModem ->
  respond rq2 h1 = (Ok (VBytes b2), h2) ->
  TYPE_MAP w !! ser_decode b2 = Some c2 ->
  wrapRemote self n1 w =
    (Ok (Some hop1), mkWorld (log w ++ [rq1]) h1 (feed w) (TYPE_MAP w)) /\
  wrapRemote hop1 n2 (wrapRemote self n1 w).2 =
    (Ok (Some (construct c2 (_lua_method_expr self)
                 (_prepend_params self ++
                  [VBytes "callRemote"; VBytes (ser_encode n1);
                   VBytes "callRemote"; VBytes (ser_encode n2)]))),
     mkWorld (log w ++ [rq1; rq2]) h2 (feed w) (TYPE_MAP w)) /\
  req_params rq2 =
    _prepend_params self ++
    [VBytes "callRemote"; VBytes (ser_encode n1);
     VBytes (ser_encode "getTypeRemote"); VBytes (ser_encode n2)].
Proof.
  cbn zeta. intros Hr1 Hk1 Hr2 Hk2.
  rewrite (wrapRemote_registered self n1 w b1 h1 CCWiredModem Hr1 Hk1).
  split; [reflexivity|]. cbn [snd]. split.
  - rewrite (wrapRemote_registered _ n2 _ b2 h2 c2);
      cbn [host log feed TYPE_MAP]; [|exact Hr2|exact Hk2].
    cbn [construct _lua_method_expr _prepend_params].
    by rewrite <- !app_assoc.
  - unfold method_request. cbn. by rewrite <- app_assoc.
Qed.

(** X9: a forwarded proxy keeps the side of its bridge: the property
    [_side] of the proxy returned by [wrapRemote] is the first prepended
    parameter of the bridge, not the far-side name, so a subscription on
    it filters events by the side of the bridge. *)
Theorem wrapRemote_keeps_side (self remote : Peripheral) (name : string)
    (side : value) (w w' : World) :
  wrapRemote self name w = (Ok (Some remote), w') ->
  _side self = Ok side ->
  _side remote = Ok side.
Proof.
  unfold wrapRemote, bind. rewrite getTypeRemote_run. cbn zeta.
  destruct (fst (respond _ (host w))) as [[| | |b|]|]; try discriminate.
  cbn [fst snd]. unfold TYPE_MAP_getitem. cbn [TYPE_MAP].
  destruct (TYPE_MAP w !! ser_decode b); [|discriminate].
  intros [= <- _]. unfold _side. cbn.
  destruct (_prepend_params self); [discriminate|done].
Qed.

(** ** The subscription: handshake and cleanup *)

Lemma drive_finished (acts : list Action) (g : Generator) (w : World) :
  gen_state g = GFinished -> drive acts g w = ([], g, w).
Proof.
  revert g w. induction acts as [|a acts IH]; intros g w Hst; [done|].
  cbn [drive].
  assert (Hact : act a g w = (None, g, w)).
  { destruct a; unfold act, gen_next, gen_close, gen_throw; by rewrite Hst. }
  rewrite Hact. by rewrite (IH g w Hst).
Qed.

Lemma handshake_run (self : Peripheral) (c : Z) (w : World) :
  let q1 := isOpen_request self c in
  let q2 := open_request self c in
  let h1 := snd (respond q1 (host w)) in
  let w1 := mkWorld (log w ++ [q1]) h1 (feed w) (TYPE_MAP w) in
  let w2 := mkWorld (log w ++ [q1; q2]) (snd (respond q2 h1))
                    (feed w) (TYPE_MAP w) in
  handshake self c w =
    match fst (respond q1 (host w)) with
    | Ok (VBool true) => (Raise (PyException "Channel is busy"), w1)
    | Ok (VBool false) =>
        match fst (respond q2 h1) with
        | Ok VNone => (Ok tt, w2)
        | Ok _ => (Raise DecodeShapeError, w2)
        | Raise e => (Raise e, w2)
        end
    | Ok _ => (Raise DecodeShapeError, w1)
    | Raise e => (Raise e, w1)
    end.
Proof.
  cbn zeta. unfold handshake, bind. rewrite isOpen_run. cbn zeta.
  destruct (fst (respond _ (host w))) as [[| [] | | |]|]; try reflexivity.
  rewrite open_run. cbn zeta. cbn [host log feed TYPE_MAP].
  rewrite <- app_assoc. cbn [app].
  destruct (fst (respond (open_request self c) _)) as [[]|]; reflexivity.
Qed.

Lemma run_finally_run {A} (g : Generator) (pending : Result A) (w : World) :
  let rq := close_request (gen_self g) (gen_channel g) in
  run_finally g pending w =
    (match fst (respond rq (host w)) with
     | Ok VNone => pending
     | Ok _ => Raise DecodeShapeError
     | Raise e => Raise e
     end,
     with_state GFinished g,
     mkWorld (log w ++ [rq]) (snd (respond rq (host w))) (feed w) (TYPE_MAP w)).
Proof.
  cbn zeta. unfold run_finally. rewrite close_run. cbn zeta.
  destruct (fst (respond _ (host w))) as [[]|]; reflexivity.
Qed.

(** X10: the channel is opened only after the status query answered
    false.  Any other outcome of the query (the channel is open, the
    round trip failed, the answer is not a boolean) ends the subscription
    at its first advance with an exception: the query is the only
    request sent, and no event is consumed. *)
Theorem receive_needs_free_channel (self : Peripheral) (c : Z)
    (w w0 : World) (g : Generator) :
  receive self c w = (Ok g, w0) ->
  (respond (isOpen_request self c) (host w0)).1 <> Ok (VBool false) ->
  exists e : Exn,
    gen_next g w0 =
      (Raise e, with_state GFinished g,
       mkWorld (log w0 ++ [isOpen_request self c])
               (respond (isOpen_request self c) (host w0)).2
               (feed w0) (TYPE_MAP w0)).
Proof.
  intros Hrecv Hnot. unfold receive, ret in Hrecv. injection Hrecv as <- <-.
  unfold gen_next. cbn [gen_state gen_self gen_channel].
  rewrite handshake_run. cbn zeta.
  destruct (fst (respond _ (host w))) as [[| [] | | |]|]; try (eexists; reflexivity).
  by destruct Hnot.
Qed.

(** X11: when the open call does not return cleanly (the round trip
    fails, or the answer carries a value), the first advance raises and
    the subscription is over before the [try] block: the status query
    and the open call are the only requests, no close call follows, and
    no event is consumed. *)
Theorem receive_open_failure (self : Peripheral) (c : Z) (w w0 : World)
    (g : Generator) (h : Host) :
  receive self c w = (Ok g, w0) ->
  respond (isOpen_request self c) (host w0) = (Ok (VBool false), h) ->
  (respond (open_request self c) h).1 <> Ok VNone ->
  exists e : Exn,
    gen_next g w0 =
      (Raise e, with_state GFinished g,
       mkWorld (log w0 ++ [isOpen_request self c; open_request self c])
               (respond (open_request self c) h).2
               (feed w0) (TYPE_MAP w0)) /\
    forall acts : list Action,
      drive (ANext :: acts) g w0 =
        ([], with_state GFinished g,
         mkWorld (log w0 ++ [isOpen_request self c; open_request self c])
                 (respond (open_request self c) h).2
                 (feed w0) (TYPE_MAP w0)).
Proof.
  intros Hrecv Hfree Hnot. unfold receive, ret in Hrecv. injection Hrecv as <- <-.
  assert (Hnext : exists e : Exn,
    gen_next (mkGenerator self c GCreated) w =
      (Raise e, with_state GFinished (mkGenerator self c GCreated),
       mkWorld (log w ++ [isOpen_request self c; open_request self c])
               (respond (open_request self c) h).2 (feed w) (TYPE_MAP w))).
  { unfold gen_next. cbn [gen_state gen_self gen_channel].
    rewrite handshake_run. cbn zeta. rewrite Hfree. cbn [fst snd].
    destruct (fst (respond (open_request self c) h)) as [[]|] eqn:E;
      try (eexists; reflexivity).
    by destruct Hnot. }
  destruct Hnext as [e Hnext]. exists e. split; [exact Hnext|].
  intros acts. cbn [drive]. unfold act at 1. rewrite Hnext.
  by rewrite drive_finished.
Qed.


(** X13: with a clean close call, [close()] on a suspended subscription
    returns normally, and [throw(e)] raises [e] itself for every [e]
    other than [StopIteration]; a thrown [StopIteration] leaves the body
    and surfaces as [RuntimeError('generator raised StopIteration')].
    Each sends the close call only and leaves the events to come where
    they are, and a later advance raises [StopIteration] without another
    request. *)
Theorem cleanup_clean (g : Generator) (w : World) (h : Host) :
  gen_state g = GSuspended ->
  respond (close_request (gen_self g) (gen_channel g)) (host w)
    = (Ok VNone, h) ->
  let w' := mkWorld (log w ++ [close_request (gen_self g) (gen_channel g)])
                    h (feed w) (TYPE_MAP w) in
  gen_close g w = (Ok tt, with_state GFinished g, w') /\
  (forall e : Exn, e <> StopIteration ->
     gen_throw e g w = (Raise e, with_state GFinished g, w')) /\
  gen_throw StopIteration g w =
    (Raise (RuntimeError "generator raised StopIteration"),
     with_state GFinished g, w') /\
  gen_next (with_state GFinished g) w' =
    (Raise StopIteration, with_state GFinished g, w').
Proof.
  intros Hst Hclose. cbn zeta. unfold gen_close, gen_throw. rewrite Hst.
  repeat split.
  - rewrite run_finally_run. cbn zeta. by rewrite Hclose.
  - intros e He. rewrite run_finally_run. cbn zeta. rewrite Hclose.
    by destruct e.
  - rewrite run_finally_run. cbn zeta. by rewrite Hclose.
Qed.

(** ** The subscription: events of any shape *)

(** X14: an event of the subscribed side and channel that does not have
    exactly three further components ends the subscription: the advance
    raises [TypeError] (the close call being clean), the close call is
    sent, and the events after it stay unconsumed. *)
Theorem receive_malformed_match (g : Generator) (w : World) (side s ch : value)
    (extra : list value) (rest : list Feed) (h : Host) :
  gen_state g = GSuspended ->
  _side (gen_self g) = Ok side ->
  feed w = Event (s :: ch :: extra) :: rest ->
  py_eq s side = true ->
  py_eq ch (VInt (gen_channel g)) = true ->
  length extra <> 3%nat ->
  respond (close_request (gen_self g) (gen_channel g)) (host w)
    = (Ok VNone, h) ->
  gen_next g w =
    (Raise TypeError, with_state GFinished g,
     mkWorld (log w ++ [close_request (gen_self g) (gen_channel g)])
             h rest (TYPE_MAP w)).
Proof.
  intros Hst Hside Hfeed Hs Hch Hlen Hclose.
  unfold gen_next, resume. rewrite Hst, Hfeed. cbn [receive_for].
  cbn [lookup list_lookup]. rewrite Hside. unfold py_ne. rewrite Hs, Hch.
  cbn [negb drop].
  assert (Hinit : ModemMessage_init extra = Raise TypeError).
  { destruct extra as [|r [|p [|d [|x tl]]]]; try reflexivity.
    by destruct Hlen. }
  rewrite drop_0, Hinit. rewrite run_finally_run. cbn zeta.
  cbn [host set_feed log feed TYPE_MAP]. by rewrite Hclose.
Qed.

(** X15: an event of another side, or of the subscribed side and another
    channel, is passed over whatever its length: the advance behaves as
    if the event had not been there.  (An event with no component at
    all, or with the subscribed side and nothing else, is not passed
    over: indexing it raises.) *)
Theorem receive_skips_foreign (g : Generator) (w : World) (side : value)
    (evt : list value) (rest : list Feed) :
  gen_state g = GSuspended ->
  _side (gen_self g) = Ok side ->
  feed w = Event evt :: rest ->
  (exists s, evt !! 0%nat = Some s /\ py_eq s side = false) \/
  (exists s ch, evt !! 0%nat = Some s /\ evt !! 1%nat = Some ch /\
                py_eq ch (VInt (gen_channel g)) = false) ->
  gen_next g w = gen_next g (set_feed rest w).
Proof.
  intros Hst Hside Hfeed Hforeign.
  unfold gen_next, resume. rewrite Hst, Hfeed.
  cbn [feed set_feed]. cbn [receive_for]. rewrite Hside. unfold py_ne.
  destruct Hforeign as [(s & -> & Hs)|(s & ch & -> & -> & Hch)].
  - rewrite Hs. cbn [negb]. reflexivity.
  - rewrite Hch. cbn [negb]. destruct (py_eq s side); reflexivity.
Qed.

(** The two raising shapes named in X15. *)
Lemma receive_short_event (g : Generator) (w : World) (side s : value)
    (rest : list Feed) :
  gen_state g = GSuspended ->
  _side (gen_self g) = Ok side ->
  py_eq s side = true ->
  (feed w = Event [] :: rest \/ feed w = Event [s] :: rest) ->
  exists e : Exn,
    gen_next g w = (Raise e, with_state GFinished g, (gen_next g w).2) /\
    feed (gen_next g w).2 = rest /\
    log (gen_next g w).2 =
      log w ++ [close_request (gen_self g) (gen_channel g)].
Proof.
  intros Hst Hside Hs [Hfeed|Hfeed];
    unfold gen_next, resume; rewrite Hst, Hfeed; cbn [receive_for];
    cbn [lookup list_lookup]; rewrite ?Hside; unfold py_ne; rewrite ?Hs;
    cbn [negb]; rewrite run_finally_run; cbn zeta;
    cbn [host set_feed log feed TYPE_MAP];
    destruct (fst (respond _ (host w))) as [[]|]; eexists; done.
Qed.

(** ** The subscription: what it never does *)

(** X16: a generator dropped before its first advance never touches the
    host: [close()] or [throw(e)] on the generator just returned by
    [receive] finishes it without a request, and whatever the consumer
    does afterwards delivers nothing, sends nothing and consumes no
    event. *)
Theorem receive_unstarted_inert (self : Peripheral) (c : Z) (w w0 : World)
    (g : Generator) (a : Action) (acts : list Action) :
  receive self c w = (Ok g, w0) ->
  a <> ANext ->
  drive (a :: acts) g w0 = ([], with_state GFinished g, w0).
Proof.
  intros Hrecv Ha. unfold receive, ret in Hrecv. injection Hrecv as <- <-.
  cbn [drive].
  assert (Hact : act a (mkGenerator self c GCreated) w =
                 (None, with_state GFinished (mkGenerator self c GCreated), w)).
  { destruct a; [done| |]; reflexivity. }
  rewrite Hact. by rewrite drive_finished.
Qed.

(** The log of a subscription that started in world [w0]. *)
Lemma trace_inv_act (self : Peripheral) (c : Z) (w0 : World) (a : Action)
    (g : Generator) (w : World) :
  trace_inv self c w0 g w ->
  trace_inv self c w0 (act a g w).1.2 (act a g w).2.
Proof.
  intros (Hs & Hc & Hlog). unfold trace_inv, subscription_requests in *.
  destruct (gen_state g) eqn:Hst.
  - (* not started *)
    destruct a as [| |e]; unfold act, gen_next, gen_close, gen_throw;
      rewrite Hst; cbn [fst snd gen_self gen_channel gen_state with_state];
      try (repeat split; try done; exists 0%nat; by rewrite app_nil_r).
    rewrite Hs, Hc, handshake_run. cbn zeta.
    destruct (fst (respond _ (host w))) as [[| [] | | |]|];
      cbn [fst snd gen_self gen_channel gen_state with_state log];
      try (repeat split; try done; exists 1%nat; by rewrite Hlog).
    destruct (fst (respond (open_request self c) _)) as [[]|];
      cbn [fst snd gen_self gen_channel gen_state with_state log];
      try (repeat split; try done; exists 2%nat; by rewrite Hlog).
    match goal with |- context [resume g ?w2] =>
      destruct (resume_spec g w2)
        as (r & st & w3 & -> & [(m & -> & -> & Hw)|(e & -> & -> & Hw)])
    end; cbn [fst snd gen_self gen_channel gen_state with_state log] in *.
    + repeat split; try done. by rewrite Hw, Hlog.
    + repeat split; try done. exists 3%nat.
      rewrite Hw, Hlog, Hs, Hc. by rewrite <- app_assoc.
  - (* suspended *)
    destruct a as [| |e]; unfold act, gen_next, gen_close, gen_throw;
      rewrite Hst.
    + destruct (resume_spec g w)
        as (r & st & w3 & -> & [(m & -> & -> & Hw)|(e & -> & -> & Hw)]);
        cbn [fst snd gen_self gen_channel gen_state with_state log] in *.
      * repeat split; try done. by rewrite Hw.
      * repeat split; try done. exists 3%nat.
        rewrite Hw, Hlog, Hs, Hc. by rewrite <- app_assoc.
    + rewrite run_finally_run. cbn zeta.
      cbn [fst snd gen_self gen_channel gen_state with_state log].
      repeat split; try done. exists 3%nat.
      rewrite Hlog, Hs, Hc. by rewrite <- app_assoc.
    + rewrite run_finally_run. cbn zeta.
      cbn [fst snd gen_self gen_channel gen_state with_state log].
      repeat split; try done. exists 3%nat.
      rewrite Hlog, Hs, Hc. by rewrite <- app_assoc.
  - (* finished *)
    destruct a as [| |e]; unfold act, gen_next, gen_close, gen_throw;
      rewrite Hst; cbn [fst snd]; rewrite Hst; done.
Qed.

Lemma trace_inv_drive (self : Peripheral) (c : Z) (w0 : World)
    (acts : list Action) :
  forall (g : Generator) (w : World),
    trace_inv self c w0 g w ->
    trace_inv self c w0 (drive acts g w).1.2 (drive acts g w).2.
Proof.
  induction acts as [|a acts IH]; intros g w Hinv; [exact Hinv|].
  rewrite drive_cons. cbn [fst snd]. apply IH. by apply trace_inv_act.
Qed.

(** X17: whatever the consumer does with a subscription and whatever
    the host and the events are, the requests it sends are an initial
    part of: status query, open call, close call.  So it never opens
    without asking, never closes a channel it has not opened, never
    opens or closes twice, and sends nothing else. *)
Theorem subscription_requests_in_order (self : Peripheral) (c : Z)
    (w : World) (acts : list Action) :
  exists k : nat,
    issued_since w (drive acts (mkGenerator self c GCreated) w).2 =
      take k (subscription_requests self c).
Proof.
  pose proof (trace_inv_drive self c w acts (mkGenerator self c GCreated) w)
    as Hinv.
  destruct Hinv as (_ & _ & Hlog).
  { repeat split. }
  unfold issued_since.
  destruct (gen_state (drive acts (mkGenerator self c GCreated) w).1.2).
  - exists 0%nat. rewrite Hlog. by rewrite drop_all.
  - exists 2%nat. rewrite Hlog. by rewrite drop_app_length.
  - destruct Hlog as [k Hlog]. exists k. rewrite Hlog.
    by rewrite drop_app_length.
Qed.

(** ** The subscription: where messages come from *)

Lemma explains_weaken (self : Peripheral) (c : Z) (xs ys : list Feed)
    (m : ModemMessage) :
  (forall x, x ∈ xs -> x ∈ ys) ->
  explains self c xs m -> explains self c ys m.
Proof.
  intros Hsub (side & s & ch & r & p & d & Hside & Hin & Hs & Hch & ->).
  exists side, s, ch, r, p, d. repeat split; auto.
Qed.

Lemma explains_nonempty (self : Peripheral) (c : Z) (xs : list Feed)
    (m : ModemMessage) :
  explains self c xs m -> (1 <= length xs)%nat.
Proof.
  intros (side & s & ch & r & p & d & _ & Hin & _).
  destruct xs; [by apply elem_of_nil in Hin | cbn; lia].
Qed.

(** The loop consumes a prefix of the events, and a message it yields is
    made from a matching five-component event of that prefix. *)
Lemma receive_for_used (self : Peripheral) (c : Z) (evs : list Feed) :
  exists used : list Feed,
    evs = used ++ (receive_for self c evs).2 /\
    forall m, (receive_for self c evs).1 = Yield m -> explains self c used m.
Proof.
  induction evs as [|[evt|e] evs (used & Hused & Hex)].
  - exists []. split; [done|]. discriminate.
  - assert (Hskip : exists used' : list Feed,
              Event evt :: evs = used' ++ (receive_for self c evs).2 /\
              forall m, (receive_for self c evs).1 = Yield m ->
                        explains self c used' m).
    { exists (Event evt :: used). split; [by rewrite Hused at 1|].
      intros m Hm. apply (explains_weaken self c used); [|by apply Hex].
      intros x Hx. by apply elem_of_cons; right. }
    assert (Hstop : forall exit : LoopExit,
              (forall m, exit <> Yield m) ->
              exists used' : list Feed,
                Event evt :: evs = used' ++ (exit, evs).2 /\
                forall m, (exit, evs).1 = Yield m -> explains self c used' m).
    { intros exit Hexit. exists [Event evt]. split; [done|].
      intros m Hm. by destruct (Hexit m). }
    cbn [receive_for].
    destruct (evt !! 0%nat) as [evt0|] eqn:E0; [|by apply Hstop].
    destruct (_side self) as [side|e] eqn:Hside; [|by apply Hstop].
    unfold py_ne.
    destruct (py_eq evt0 side) eqn:Hs; cbn [negb]; [|exact Hskip].
    destruct (evt !! 1%nat) as [evt1|] eqn:E1; [|by apply Hstop].
    destruct (py_eq evt1 (VInt c)) eqn:Hch; cbn [negb]; [|exact Hskip].
    destruct (ModemMessage_init (drop 2 evt)) as [msg|e] eqn:Hinit;
      [|by apply Hstop].
    exists [Event evt]. split; [done|].
    intros m [= <-].
    destruct evt as [|a [|b [|r [|p [|d [|x tl]]]]]]; try discriminate.
    cbn in E0, E1, Hinit. injection E0 as ->. injection E1 as ->.
    injection Hinit as <-.
    exists side, evt0, evt1, r, p, d. repeat split; try done.
    by apply list_elem_of_singleton.
  - exists [Fault e]. split; [done|]. discriminate.
Qed.

Lemma handshake_frame (self : Peripheral) (c : Z) (w : World) :
  feed (handshake self c w).2 = feed w /\
  TYPE_MAP (handshake self c w).2 = TYPE_MAP w.
Proof.
  rewrite handshake_run. cbn zeta.
  destruct (fst (respond _ (host w))) as [[| [] | | |]|]; try done.
  destruct (fst (respond (open_request self c) _)) as [[]|]; done.
Qed.

Lemma resume_used (g : Generator) (w : World) :
  exists used : list Feed,
    feed w = used ++ feed (resume g w).2 /\
    TYPE_MAP (resume g w).2 = TYPE_MAP w /\
    gen_self (resume g w).1.2 = gen_self g /\
    gen_channel (resume g w).1.2 = gen_channel g /\
    forall m, (resume g w).1.1 = Ok m ->
              explains (gen_self g) (gen_channel g) used m.
Proof.
  destruct (receive_for_used (gen_self g) (gen_channel g) (feed w))
    as (used & Hused & Hex).
  exists used. unfold resume.
  destruct (receive_for (gen_self g) (gen_channel g) (feed w))
    as [[m| |e] rest]; cbn [fst snd] in *.
  - repeat split; try done. intros m' [= <-]. by apply Hex.
  - rewrite run_finally_run. cbn zeta. cbn [fst snd feed TYPE_MAP set_feed].
    repeat split; try done.
    destruct (fst (respond _ _)) as [[]|]; discriminate.
  - rewrite run_finally_run. cbn zeta. cbn [fst snd feed TYPE_MAP set_feed].
    repeat split; try done.
    destruct (fst (respond _ _)) as [[]|]; discriminate.
Qed.

Lemma act_used (a : Action) (g : Generator) (w : World) :
  exists used : list Feed,
    feed w = used ++ feed (act a g w).2 /\
    TYPE_MAP (act a g w).2 = TYPE_MAP w /\
    gen_self (act a g w).1.2 = gen_self g /\
    gen_channel (act a g w).1.2 = gen_channel g /\
    forall m, (act a g w).1.1 = Some m ->
              explains (gen_self g) (gen_channel g) used m.
Proof.
  assert (Hnothing : forall (st : GenState) (w' : World),
            feed w' = feed w -> TYPE_MAP w' = TYPE_MAP w ->
            exists used : list Feed,
              feed w = used ++ feed w' /\ TYPE_MAP w' = TYPE_MAP w /\
              gen_self (with_state st g) = gen_self g /\
              gen_channel (with_state st g) = gen_channel g /\
              forall m : ModemMessage, @None ModemMessage = Some m ->
                explains (gen_self g) (gen_channel g) used m).
  { intros st w' Hf Ht. exists []. by rewrite Hf. }
  assert (Hsame : exists used : list Feed,
            feed w = used ++ feed w /\ TYPE_MAP w = TYPE_MAP w /\
            gen_self g = gen_self g /\ gen_channel g = gen_channel g /\
            forall m : ModemMessage, @None ModemMessage = Some m ->
              explains (gen_self g) (gen_channel g) used m).
  { by exists []. }
  assert (Hresume : forall w' : World,
            feed w' = feed w -> TYPE_MAP w' = TYPE_MAP w ->
            exists used : list Feed,
              feed w = used ++ feed (resume g w').2 /\
              TYPE_MAP (resume g w').2 = TYPE_MAP w /\
              gen_self (resume g w').1.2 = gen_self g /\
              gen_channel (resume g w').1.2 = gen_channel g /\
              forall m, match (resume g w').1.1 with
                        | Ok msg => Some msg | Raise _ => None end = Some m ->
                        explains (gen_self g) (gen_channel g) used m).
  { intros w' Hf Ht.
    destruct (resume_used g w') as (used & Hused & Htm & Hs & Hc & Hex).
    exists used. rewrite <- Hf, <- Ht. repeat split; try done.
    intros m. destruct (resume g w').1.1; [|done]. intros [= <-]. by apply Hex. }
  destruct a as [| |e]; unfold act, gen_next, gen_close, gen_throw;
    destruct (gen_state g) eqn:Hst; cbn [fst snd]; try exact Hsame;
    try (by apply Hnothing);
    try (rewrite run_finally_run; cbn zeta; cbn [fst snd];
         by apply Hnothing).
  - destruct (handshake_frame (gen_self g) (gen_channel g) w) as [Hf Ht].
    destruct (handshake (gen_self g) (gen_channel g) w) as [[[]|e] w'];
      cbn [fst snd] in *; [|by apply Hnothing].
    specialize (Hresume w' Hf Ht).
    by destruct (resume g w') as [[[m|e] g1] w1].
  - specialize (Hresume w eq_refl eq_refl).
    by destruct (resume g w) as [[[m|e] g1] w1].
Qed.

Lemma drive_used (acts : list Action) :
  forall (g : Generator) (w : World),
    exists used : list Feed,
      feed w = used ++ feed (drive acts g w).2 /\
      TYPE_MAP (drive acts g w).2 = TYPE_MAP w /\
      (length (drive acts g w).1.1 <= length used)%nat /\
      forall m, m ∈ (drive acts g w).1.1 ->
                explains (gen_self g) (gen_channel g) used m.
Proof.
  induction acts as [|a acts IH]; intros g w.
  - exists []. cbn. split; [done|]. split; [done|]. split; [lia|].
    intros m Hm. by apply elem_of_nil in Hm.
  - rewrite drive_cons. cbn [fst snd].
    destruct (act_used a g w) as (u1 & Hu1 & Ht1 & Hs & Hc & Hex1).
    destruct (IH (act a g w).1.2 (act a g w).2) as (u2 & Hu2 & Ht2 & Hlen & Hex2).
    rewrite Hs, Hc in Hex2.
    exists (u1 ++ u2). split; [by rewrite <- app_assoc, <- Hu2|].
    split; [congruence|]. split.
    + rewrite !length_app.
      destruct (act a g w).1.1 as [m|];
        cbn [option_list option_rect length]; [|lia].
      pose proof (explains_nonempty _ _ _ _ (Hex1 m eq_refl)). lia.
    + intros m [Hm|Hm]%elem_of_app.
      * destruct (act a g w).1.1 as [m'|]; cbn [option_list option_rect] in Hm;
          [|by apply elem_of_nil in Hm].
        apply list_elem_of_singleton in Hm as ->.
        apply (explains_weaken _ _ u1); [|by apply Hex1].
        intros x Hx. apply elem_of_app. by left.
      * apply (explains_weaken _ _ u2); [|by apply Hex2].
        intros x Hx. apply elem_of_app. by right.
Qed.

(** X18: a subscription only ever takes events from the front of the
    stream: after any actions of the consumer the events to come are a
    suffix of what they were, every delivered message has used up at
    least one event, and the registry is untouched. *)
Theorem subscription_consumes_prefix (self : Peripheral) (c : Z) (w : World)
    (acts : list Action) :
  let run := drive acts (mkGenerator self c GCreated) w in
  exists used : list Feed,
    feed w = used ++ feed run.2 /\
    (length run.1.1 <= length used)%nat /\
    TYPE_MAP run.2 = TYPE_MAP w.
Proof.
  cbn zeta.
  destruct (drive_used acts (mkGenerator self c GCreated) w)
    as (used & Hused & Ht & Hlen & _).
  by exists used.
Qed.

(** X19: every message a subscription delivers, on any stream (events of
    any shape, faults of the source) and under any actions of the
    consumer, is made from an event of the stream that has exactly five
    components, whose first equals the side of the proxy and whose second
    equals the channel, and it carries the last three components in
    order. *)
Theorem delivered_messages_explained (self : Peripheral) (c : Z) (w : World)
    (acts : list Action) (m : ModemMessage) :
  m ∈ (drive acts (mkGenerator self c GCreated) w).1.1 ->
  explains self c (feed w) m.
Proof.
  intros Hm.
  destruct (drive_used acts (mkGenerator self c GCreated) w)
    as (used & Hused & _ & _ & Hex).
  apply (explains_weaken self c used); [|by apply Hex].
  intros x Hx. rewrite Hused. apply elem_of_app. by left.
Qed.

End Further.

(** * The typed operations *)

Section OperationProperties.
Context {env : Collaborators} {ext : Extern.Extractors}.

(** A continuation that leaves the world alone does not change the
    world a call ends in. *)
Lemma bind_world {A B} (m : M A) (k : A -> M B) (w : World) :
  (forall (a : A) (w' : World), (k a w').2 = w') ->
  (bind m k w).2 = (m w).2.
Proof.
  intros Hk. unfold bind. destruct (m w) as [[a|e] w']; cbn [snd]; auto.
Qed.

Lemma discard_world {A} (m : M A) (w : World) : (discard m w).2 = (m w).2.
Proof. unfold discard. by apply bind_world. Qed.

Lemma method_take_world {A} (self : Peripheral) (name : string)
    (params : list value) (k : value -> M A) (w : World) :
  (forall (rp : value) (w' : World), (k rp w').2 = w') ->
  (bind (_method self name params) k w).2 =
    mkWorld (log w ++ [method_request self name params])
            (snd (respond (method_request self name params) (host w)))
            (feed w) (TYPE_MAP w).
Proof. intros Hk. rewrite bind_world by exact Hk. by rewrite _method_run. Qed.

Lemma take_world :
  (forall rp w, (take_bool rp w).2 = w) /\
  (forall rp w, (take_none rp w).2 = w) /\
  (forall rp w, (take_option_string rp w).2 = w) /\
  (forall rp w, (take_int rp w).2 = w).
Proof. repeat split; intros [] w; reflexivity. Qed.

(** Each operation ends in the world of its one call of [_method]. *)
Lemma invoke_world (op : Operation) (self : Peripheral) (w : World) :
  (invoke op self w).2 =
    mkWorld (log w ++ [method_request self (op_name op) (op_params op)])
            (snd (respond (method_request self (op_name op) (op_params op))
                          (host w)))
            (feed w) (TYPE_MAP w).
Proof.
  destruct take_world as (Hbool & Hnone & Hoptstr & Hint).
  destruct op; cbn [invoke op_name op_params]; rewrite discard_world;
    unfold Drive.isDiskPresent,
      Drive.getDiskLabel,
      Drive.setDiskLabel,
      Drive.hasData,
      Drive.getMountPath,
      Drive.hasAudio,
      Drive.getAudioTitle,
      Drive.playAudio,
      Drive.stopAudio,
      Drive.ejectDisk,
      Drive.getDiskID,
      Monitor.getTextScale,
      Monitor.setTextScale,
      Computer.turnOn,
      Computer.shutdown,
      Computer.reboot,
      Computer.getID,
      Computer.getLabel,
      Computer.isOn,
      Printer.newPage,
      Printer.endPage,
      Printer.write,
      Printer.setCursorPos,
      Printer.getCursorPos,
      Printer.getPageSize,
      Printer.setPageTitle,
      Printer.getPaperLevel,
      Printer.getInkLevel,
      Speaker.playNote,
      Speaker.playSound,
      CommandBlock.getCommand,
      CommandBlock.setCommand,
      CommandBlock.runCommand,
      Workbench.craft,
      Inventory.getItemDetail,
      Inventory.pullItems,
      Inventory.pushItems,
      Inventory.list,
      WebDisplay.getURL,
      WebDisplay.isLinked,
      WebDisplay.getOwner,
      WebDisplay.getSize,
      WebDisplay.getRotation,
      WebDisplay.getScreenSide,
      WebDisplay.getResolution,
      WebDisplay.getScreenPos,
      WebDisplay.type,
      WebDisplay.click,
      WebDisplay.runJS,
      WebDisplay.setURL,
      WebDisplay.setRotation,
      WebDisplay.setResolution,
      NBTObserver.readState,
      NBTObserver.hasState,
      NBTObserver.writeState,
      NBTObserver.readNBT,
      NBTObserver.hasNBT,
      NBTObserver.writeNBT,
      Projector3d.write,
      Projector3d.clear,
      Manipulator.getBlockMeta,
      Manipulator.sense,
      Manipulator.getMetaByID,
      Manipulator.capture,
      Manipulator.clearCaptures,
      Manipulator.say,
      Manipulator.uncapture,
      WiredModem.getNameLocal,
      WiredModem.getNamesRemote,
      size,
      isOpen,
      open,
      close,
      closeAll,
      transmit,
      isWireless,
      getTypeRemote,
      isPresentRemote;
    first [ apply method_take_world; first
              [ exact Hbool | exact Hnone | exact Hoptstr | exact Hint
              | intros rp w'; reflexivity ]
          | by rewrite _method_run ].
Qed.

(** C6: a proxy made by the registered constructor of a kind from a target
    expression and prepended arguments keeps both as given.  Every typed
    operation that its class has, with whatever arguments, and every
    invocation of the call primitive itself, sends exactly one request:
    its code names that target expression and its parameters are the
    prepended arguments, then the encoded method name, then the
    arguments of the caller in order (encoded as the operation encodes
    them).  Nothing else of the world changes, and no operation returns
    or stores another target or other prepended arguments. *)
Theorem operations_single_request (K : string) (pcls : PCls) (expr : string)
    (prepend : list value) (w : World) :
  TYPE_MAP w !! K = Some pcls ->
  TYPE_MAP_getitem K w = (Ok pcls, w) /\
  let proxy := construct pcls expr prepend in
  _lua_method_expr proxy = expr /\
  _prepend_params proxy = prepend /\
  (forall (name : string) (params : list value) (w1 : World),
     let rq := mkRequest ("return " +:+ expr +:+ "(...)")
                 (prepend ++ [VBytes (ser_encode name)] ++ params) in
     _method proxy name params w1 =
       (fst (respond rq (host w1)),
        mkWorld (log w1 ++ [rq]) (snd (respond rq (host w1)))
                (feed w1) (TYPE_MAP w1))) /\
  (forall (op : Operation) (w1 : World),
     provides pcls (op_group op) = true ->
     let rq := mkRequest ("return " +:+ expr +:+ "(...)")
                 (prepend ++ [VBytes (ser_encode (op_name op))] ++ op_params op) in
     (invoke op proxy w1).2 =
       mkWorld (log w1 ++ [rq]) (snd (respond rq (host w1)))
               (feed w1) (TYPE_MAP w1)).
Proof.
  intros HK. split.
  - unfold TYPE_MAP_getitem. rewrite HK. reflexivity.
  - cbn zeta. split; [reflexivity|]. split; [reflexivity|]. split.
    + intros name params w1. apply _method_run.
    + intros op w1 _. apply invoke_world.
Qed.

End OperationProperties.

(** * Runs on the sample host *)

Module Runs.
Import Sample.
#[local] Existing Instance computer.

(** The end-to-end scenarios: a modem on the left found wireless, and a
    furnace behind the wired modem at the back. *)
Example wrap_left_isOpen :
  let w := world [] [] in
  wrap "left" w =
    (Ok (Some left_modem),
     mkWorld (env := computer)
             [module_request "getType" [VBytes "left"];
              module_request "call" [VBytes "left"; VBytes "isWireless"]]
             [] [] (TYPE_MAP w)) /\
  (isOpen left_modem 5 w).1 = Ok false /\
  log (isOpen left_modem 5 w).2 =
    [mkRequest "return peripheral.call(...)"
       [VBytes "left"; VBytes "isOpen"; VInt 5]].
Proof. vm_compute. repeat split. Qed.

Example wrapRemote_furnace_size :
  let w := world [] [] in
  let furnace :=
    construct CCInventory "peripheral.call"
      [VBytes "back"; VBytes "callRemote"; VBytes "furnace_0"] in
  (wrapRemote back_modem "furnace_0" w).1 = Ok (Some furnace) /\
  (size furnace w).1 = Ok 3 /\
  log (size furnace w).2 =
    [mkRequest "return peripheral.call(...)"
       [VBytes "back"; VBytes "callRemote"; VBytes "furnace_0"; VBytes "size"]].
Proof. vm_compute. repeat split. Qed.

Lemma receive_closes_exactly_once_witness :
  let w := world (inbound mixed) [] in
  let g := mkGenerator left_modem 1 GCreated in
  let w1 := (handshake left_modem 1 w).2 in
  receive left_modem 1 w = (Ok g, w) /\
  handshake left_modem 1 w = (Ok tt, w1) /\
  issued_since w1 (drive [ANext; AClose] g w).2 = [close_request left_modem 1].
Proof.
  cbn zeta. split; [reflexivity|]. split; [vm_compute; reflexivity|].
  destruct (receive_closes_exactly_once (env := computer) left_modem 1
              (world (inbound mixed) []) (world (inbound mixed) [])
              (handshake left_modem 1 (world (inbound mixed) [])).2
              (mkGenerator left_modem 1 GCreated) [AClose]
              eq_refl ltac:(vm_compute; reflexivity)) as [Hclosed _].
  exact Hclosed.
Defined.

Lemma receive_busy_witness :
  let w := world [] [("left", 1)] in
  let g := mkGenerator left_modem 1 GCreated in
  receive left_modem 1 w = (Ok g, w) /\
  respond (isOpen_request left_modem 1) (host w)
    = (Ok (VBool true), [("left", 1)]) /\
  (gen_next g w).1.1 = Raise (PyException "Channel is busy") /\
  issued_since w (gen_next g w).2 = [isOpen_request left_modem 1].
Proof.
  cbn zeta. split; [reflexivity|]. split; [vm_compute; reflexivity|].
  destruct (receive_busy (env := computer) left_modem 1
              (world [] [("left", 1)]) (world [] [("left", 1)])
              (mkGenerator left_modem 1 GCreated) [("left", 1)]
              eq_refl ltac:(vm_compute; reflexivity)) as [Hnext Hlog].
  split; [by rewrite Hnext | exact Hlog].
Defined.

Lemma receive_filters_witness :
  let w := world (inbound mixed) [] in
  let g := mkGenerator left_modem 1 GCreated in
  receive left_modem 1 w = (Ok g, w) /\
  _side left_modem = Ok (VBytes "left") /\
  handshake left_modem 1 w = (Ok tt, (handshake left_modem 1 w).2) /\
  feed w = inbound mixed /\
  (drive (replicate 3 ANext) g w).1.1 =
    [mkModemMessage (VInt 8) (VBytes "b") (VInt 11);
     mkModemMessage (VInt 5) (VBytes "d") (VInt 13)].
Proof.
  cbn zeta. split; [reflexivity|]. split; [reflexivity|].
  split; [vm_compute; reflexivity|]. split; [reflexivity|].
  destruct (receive_filters (env := computer) left_modem 1 (VBytes "left")
              (world (inbound mixed) []) (world (inbound mixed) [])
              (handshake left_modem 1 (world (inbound mixed) [])).2
              (mkGenerator left_modem 1 GCreated) mixed 3
              eq_refl eq_refl ltac:(vm_compute; reflexivity) eq_refl)
    as [Hmsgs _].
  rewrite Hmsgs. reflexivity.
Defined.

Lemma wrapRemote_composition_witness :
  let w := world [] [] in
  respond (method_request back_modem "getTypeRemote" [VBytes "furnace_0"])
          (host w) = (Ok (VBytes "minecraft:furnace"), []) /\
  TYPE_MAP w !! "minecraft:furnace" = Some CCInventory /\
  (exists remote : Peripheral,
     (wrapRemote back_modem "furnace_0" w).1 = Ok (Some remote) /\
     _prepend_params remote =
       [VBytes "back"; VBytes "callRemote"; VBytes "furnace_0"] /\
     _lua_method_expr remote = "peripheral.call") /\
  respond (method_request back_modem "getTypeRemote" [VBytes "nothing"])
          (host w) = (Ok VNone, []) /\
  (wrapRemote back_modem "nothing" w).1 = Ok None.
Proof.
  cbn zeta.
  split; [vm_compute; reflexivity|]. split; [vm_compute; reflexivity|].
  split.
  - destruct (wrapRemote_composition (env := computer) back_modem "furnace_0"
                (world [] [])) as [Hreg _].
    destruct (Hreg "minecraft:furnace" [] CCInventory
                ltac:(vm_compute; reflexivity) ltac:(vm_compute; reflexivity))
      as (remote & Hrun & _ & Hpre & Hexpr & _).
    exists remote. rewrite Hrun. repeat split; assumption.
  - split; [vm_compute; reflexivity|].
    destruct (wrapRemote_composition (env := computer) back_modem "nothing"
                (world [] [])) as [_ Hnone].
    by rewrite (Hnone [] ltac:(vm_compute; reflexivity)).
Defined.

Lemma wrap_protocol_witness :
  let w := world [] [] in
  (wrap "bottom" w).1 = Ok None /\
  (wrap "left" w).1 = Ok (Some left_modem) /\
  (wrap "back" w).1 = Ok (Some back_modem) /\
  (wrap "right" w).1 =
    Ok (Some (construct CCDrive "peripheral.call" [VBytes "right"])).
Proof.
  cbn zeta. repeat apply conj.
  - destruct (wrap_protocol (env := computer) "bottom" (world [] []))
      as (Hnone & _ & _).
    by rewrite (Hnone [] ltac:(vm_compute; reflexivity)).
  - destruct (wrap_protocol (env := computer) "left" (world [] []))
      as (_ & Hmodem & _).
    by rewrite (Hmodem "modem" [] [] true ltac:(vm_compute; reflexivity)
                  eq_refl ltac:(vm_compute; reflexivity)).
  - destruct (wrap_protocol (env := computer) "back" (world [] []))
      as (_ & Hmodem & _).
    by rewrite (Hmodem "modem" [] [] false ltac:(vm_compute; reflexivity)
                  eq_refl ltac:(vm_compute; reflexivity)).
  - destruct (wrap_protocol (env := computer) "right" (world [] []))
      as (_ & _ & Hother).
    rewrite (Hother "drive" [] ltac:(vm_compute; reflexivity)
               ltac:(discriminate)).
    vm_compute. reflexivity.
Defined.

(** C7 as stated fails for the kind "modem": the modem on the left is
    reported, the registry has no constructor for "modem", and [wrap]
    returns a proxy instead of raising the lookup error.  So it is not the
    case that every reported kind without a constructor makes [wrap]
    raise. *)
Lemma wrap_modem_unregistered :
  let w := world [] [] in
  ((respond (module_request "getType" [VBytes "left"]) (host w)).1
     = Ok (VBytes "modem") /\
   TYPE_MAP w !! "modem" = None /\
   (wrap "left" w).1 = Ok (Some left_modem) /\
   (wrap "left" w).1 <> Raise (KeyError "modem")) /\
  ~ (forall (env : Collaborators) (w : World) (side b : string) (h : Host),
       respond (module_request "getType" [VBytes (ser_encode side)]) (host w)
         = (Ok (VBytes b), h) ->
       TYPE_MAP w !! ser_decode b = None ->
       (wrap side w).1 = Raise (KeyError (ser_decode b))).
Proof.
  cbn zeta. split.
  - vm_compute. repeat split. discriminate.
  - intros Hall.
    specialize (Hall computer (world [] []) "left" "modem" []
                  ltac:(vm_compute; reflexivity) ltac:(vm_compute; reflexivity)).
    vm_compute in Hall. discriminate.
Qed.

Lemma unknown_kind_raises_witness :
  let w := world [] [] in
  (respond (module_request "getType" [VBytes "top"]) (host w)).1
    = Ok (VBytes "energy_cell") /\
  TYPE_MAP w !! "energy_cell" = None /\
  (wrap "top" w).1 = Raise (KeyError "energy_cell") /\
  (wrapRemote back_modem "cell_2" w).1 = Raise (KeyError "energy_cell").
Proof.
  cbn zeta.
  split; [vm_compute; reflexivity|]. split; [vm_compute; reflexivity|].
  destruct (unknown_kind_raises (env := computer) (world [] []))
    as (Hwrap & Hremote & _ & _).
  split.
  - apply (Hwrap "top" "energy_cell" []);
      [vm_compute; reflexivity | discriminate | vm_compute; reflexivity].
  - apply (Hremote back_modem "cell_2" "energy_cell" []);
      vm_compute; reflexivity.
Defined.

Lemma receive_is_lazy_witness :
  let w := world (inbound mixed) [] in
  respond (isOpen_request left_modem 1) (host w) = (Ok (VBool false), []) /\
  exists g : Generator,
    receive left_modem 1 w = (Ok g, w) /\
    exists rest : list Request,
      log (gen_next g w).2 =
        log w ++ isOpen_request left_modem 1 :: open_request left_modem 1 :: rest.
Proof.
  cbn zeta. split; [vm_compute; reflexivity|].
  destruct (receive_is_lazy (env := computer) left_modem 1
              (world (inbound mixed) []))
    as (g & Hrecv & _ & _ & _ & _ & _ & Hfirst).
  exists g. split; [exact Hrecv|].
  apply (Hfirst []). vm_compute. reflexivity.
Defined.

Lemma builtin_registry_without_modem_witness :
  let w := world [] [] in
  respond (method_request back_modem "getTypeRemote" [VBytes "modem_1"])
          (host w) = (Ok (VBytes "modem"), []) /\
  (wrapRemote back_modem "modem_1" w).1 = Raise (KeyError "modem").
Proof.
  cbn zeta. split; [vm_compute; reflexivity|].
  destruct (builtin_registry_without_modem (env := computer)
              (mkWorld (env := computer) [] [] [] ∅))
    as (_ & _ & _ & _ & _ & _ & Hfwd).
  rewrite (Hfwd back_modem "modem_1" (world [] []) "modem" []
             eq_refl ltac:(vm_compute; reflexivity) eq_refl).
  reflexivity.
Defined.

End Runs.

(** * Further runs *)

Module FurtherRuns.

Module OnSample.
Import Sample.
#[local] Existing Instance computer.

Lemma registerType_independent_witness :
  let w := world [] [] in
  "energy_cell" <> "tank" /\
  (registerType "tank" (UserClass "Tank")
     (registerType "energy_cell" (UserClass "Cell") w).2).2 =
  (registerType "energy_cell" (UserClass "Cell")
     (registerType "tank" (UserClass "Tank") w).2).2.
Proof.
  cbn zeta. split; [discriminate|].
  apply (registerType_independent "energy_cell" "tank"
           (UserClass "Cell") (UserClass "Tank") (world [] [])).
  discriminate.
Defined.

Lemma wrap_after_registerType_witness :
  let w := world [] [] in
  respond (module_request "getType" [VBytes "top"]) (host w)
    = (Ok (VBytes "energy_cell"), []) /\
  "energy_cell" <> "modem" /\
  (wrap "top" w).1 = Raise (KeyError "energy_cell") /\
  (wrap "top" (registerType "energy_cell" (UserClass "Cell") w).2).1 =
    Ok (Some (construct (UserClass "Cell") "peripheral.call" [VBytes "top"])).
Proof.
  cbn zeta. split; [vm_compute; reflexivity|]. split; [discriminate|].
  split; [vm_compute; reflexivity|].
  rewrite (wrap_after_registerType "energy_cell" (UserClass "Cell") "top"
             "energy_cell" (world [] []) []
             ltac:(vm_compute; reflexivity) eq_refl ltac:(discriminate)).
  reflexivity.
Defined.

Lemma wrapRemote_after_registerType_witness :
  let w := world [] [] in
  respond (method_request back_modem "getTypeRemote" [VBytes "modem_1"])
          (host w) = (Ok (VBytes "modem"), []) /\
  (wrapRemote back_modem "modem_1"
     (registerType "modem" CCWiredModem w).2).1 =
    Ok (Some (construct CCWiredModem "peripheral.call"
                [VBytes "back"; VBytes "callRemote"; VBytes "modem_1"])).
Proof.
  cbn zeta. split; [vm_compute; reflexivity|].
  rewrite (wrapRemote_after_registerType "modem" CCWiredModem back_modem
             "modem_1" "modem" (world [] []) []
             ltac:(vm_compute; reflexivity) eq_refl).
  reflexivity.
Defined.

Lemma wrapRemote_keeps_side_witness :
  let w := world [] [] in
  let furnace :=
    construct CCInventory "peripheral.call"
      [VBytes "back"; VBytes "callRemote"; VBytes "furnace_0"] in
  wrapRemote back_modem "furnace_0" w =
    (Ok (Some furnace), (wrapRemote back_modem "furnace_0" w).2) /\
  _side back_modem = Ok (VBytes "back") /\
  _side furnace = Ok (VBytes "back").
Proof.
  cbn zeta. split; [vm_compute; reflexivity|]. split; [reflexivity|].
  apply (wrapRemote_keeps_side back_modem _ "furnace_0" (VBytes "back")
           (world [] []) (wrapRemote back_modem "furnace_0" (world [] [])).2);
    [vm_compute; reflexivity | reflexivity].
Defined.

Lemma cleanup_clean_witness :
  let w := world [] [("left", 1)] in
  let g := mkGenerator left_modem 1 GSuspended in
  gen_state g = GSuspended /\
  respond (close_request left_modem 1) (host w) = (Ok VNone, []) /\
  (gen_close g w).1.1 = Ok tt /\
  host (gen_close g w).2 = [].
Proof.
  cbn zeta. split; [reflexivity|]. split; [vm_compute; reflexivity|].
  destruct (cleanup_clean (mkGenerator left_modem 1 GSuspended)
              (world [] [("left", 1)]) []
              eq_refl ltac:(vm_compute; reflexivity)) as (Hclose & _ & _).
  rewrite Hclose. split; reflexivity.
Defined.

Lemma receive_malformed_match_witness :
  let rest := inbound mixed in
  let w := world (Event [VBytes "left"; VInt 1; VInt 7] :: rest) [("left", 1)] in
  let g := mkGenerator left_modem 1 GSuspended in
  gen_state g = GSuspended /\
  _side left_modem = Ok (VBytes "left") /\
  feed w = Event [VBytes "left"; VInt 1; VInt 7] :: rest /\
  py_eq (VBytes "left") (VBytes "left") = true /\
  py_eq (VInt 1) (VInt 1) = true /\
  length [VInt 7] <> 3%nat /\
  respond (close_request left_modem 1) (host w) = (Ok VNone, []) /\
  (gen_next g w).1.1 = Raise TypeError /\
  feed (gen_next g w).2 = rest.
Proof.
  cbn zeta. do 7 (split; [first [reflexivity | discriminate
                                | vm_compute; reflexivity]|]).
  rewrite (receive_malformed_match (mkGenerator left_modem 1 GSuspended)
             (world (Event [VBytes "left"; VInt 1; VInt 7] :: inbound mixed)
                    [("left", 1)])
             (VBytes "left") (VBytes "left") (VInt 1) [VInt 7] (inbound mixed) []
             eq_refl eq_refl eq_refl eq_refl eq_refl ltac:(discriminate)
             ltac:(vm_compute; reflexivity)).
  split; reflexivity.
Defined.

Lemma receive_skips_foreign_witness :
  let rest := inbound mixed in
  let w := world (Event [VBytes "back"] :: rest) [("left", 1)] in
  let g := mkGenerator left_modem 1 GSuspended in
  gen_state g = GSuspended /\
  _side left_modem = Ok (VBytes "left") /\
  feed w = Event [VBytes "back"] :: rest /\
  py_eq (VBytes "back") (VBytes "left") = false /\
  gen_next g w = gen_next g (set_feed rest w) /\
  (gen_next g w).1.1 = Ok (mkModemMessage (VInt 8) (VBytes "b") (VInt 11)).
Proof.
  cbn zeta. do 4 (split; [reflexivity|]).
  assert (Hskip := receive_skips_foreign (mkGenerator left_modem 1 GSuspended)
             (world (Event [VBytes "back"] :: inbound mixed) [("left", 1)])
             (VBytes "left") [VBytes "back"] (inbound mixed)
             eq_refl eq_refl eq_refl
             (or_introl (ex_intro _ (VBytes "back") (conj eq_refl eq_refl)))).
  split; [exact Hskip|]. rewrite Hskip. vm_compute. reflexivity.
Defined.

Lemma receive_unstarted_inert_witness :
  let w := world (inbound mixed) [] in
  let g := mkGenerator left_modem 1 GCreated in
  receive left_modem 1 w = (Ok g, w) /\
  AClose <> ANext /\
  drive [AClose; ANext; ANext] g w = ([], with_state GFinished g, w).
Proof.
  cbn zeta. split; [reflexivity|]. split; [discriminate|].
  apply (receive_unstarted_inert left_modem 1 (world (inbound mixed) [])
           (world (inbound mixed) []) _ AClose [ANext; ANext]);
    [reflexivity | discriminate].
Defined.

Lemma delivered_messages_explained_witness :
  let w := world (inbound mixed) [] in
  let m := mkModemMessage (VInt 5) (VBytes "d") (VInt 13) in
  m ∈ (drive [ANext; ANext] (mkGenerator left_modem 1 GCreated) w).1.1 /\
  explains left_modem 1 (feed w) m.
Proof.
  cbn zeta.
  assert (Hin : mkModemMessage (VInt 5) (VBytes "d") (VInt 13) ∈
            (drive [ANext; ANext] (mkGenerator left_modem 1 GCreated)
               (world (inbound mixed) [])).1.1).
  { vm_compute. apply list_elem_of_further, list_elem_of_here. }
  split; [exact Hin|].
  exact (delivered_messages_explained left_modem 1 (world (inbound mixed) [])
           [ANext; ANext] _ Hin).
Defined.

End OnSample.

Module OnScript.
Import Scripted.
#[local] Existing Instance computer.

(** A wired modem behind a wired modem, with "modem" registered for
    forwarding. *)
Lemma wrapRemote_twice_witness :
  let w := (registerType "modem" CCWiredModem
              (world [Ok (VBytes "modem"); Ok (VBytes "minecraft:chest")] [])).2 in
  TYPE_MAP w !! "modem" = Some CCWiredModem /\
  TYPE_MAP w !! "minecraft:chest" = Some CCInventory /\
  exists hop1 : Peripheral,
    (wrapRemote back_modem "modem_1" w).1 = Ok (Some hop1) /\
    (wrapRemote hop1 "chest_3" (wrapRemote back_modem "modem_1" w).2).1 =
      Ok (Some (construct CCInventory "peripheral.call"
                  [VBytes "back"; VBytes "callRemote"; VBytes "modem_1";
                   VBytes "callRemote"; VBytes "chest_3"])).
Proof.
  cbn zeta. split; [vm_compute; reflexivity|]. split; [vm_compute; reflexivity|].
  destruct (wrapRemote_twice back_modem "modem_1" "chest_3" "modem"
              "minecraft:chest" CCInventory
              (registerType "modem" CCWiredModem
                 (world [Ok (VBytes "modem"); Ok (VBytes "minecraft:chest")] [])).2
              [Ok (VBytes "minecraft:chest")] []
              ltac:(vm_compute; reflexivity) ltac:(vm_compute; reflexivity)
              ltac:(vm_compute; reflexivity) ltac:(vm_compute; reflexivity))
    as (H1 & H2 & _).
  eexists. rewrite H1. split; [reflexivity|]. cbn [snd]. rewrite H1 in H2.
  cbn [snd] in H2. rewrite H2. reflexivity.
Defined.

(** The link is down when the subscription starts. *)
Lemma receive_needs_free_channel_witness :
  let w := world [] [Event [VBytes "left"; VInt 1; VInt 7; VNone; VInt 3]] in
  let g := mkGenerator left_modem 1 GCreated in
  receive left_modem 1 w = (Ok g, w) /\
  (respond (isOpen_request left_modem 1) (host w)).1 <> Ok (VBool false) /\
  exists e : Exn,
    (gen_next g w).1.1 = Raise e /\
    issued_since w (gen_next g w).2 = [isOpen_request left_modem 1] /\
    feed (gen_next g w).2 = feed w.
Proof.
  cbn zeta. split; [reflexivity|]. split; [vm_compute; discriminate|].
  destruct (receive_needs_free_channel left_modem 1
              (world [] [Event [VBytes "left"; VInt 1; VInt 7; VNone; VInt 3]])
              _ _ eq_refl ltac:(vm_compute; discriminate)) as [e He].
  exists e. rewrite He. split; [reflexivity|].
  split; vm_compute; reflexivity.
Defined.

(** The modem refuses to open one more channel. *)
Lemma receive_open_failure_witness :
  let w := world [Ok (VBool false);
                  Raise (TransportError "Too many open channels")]
                 [Event [VBytes "left"; VInt 1; VInt 7; VNone; VInt 3]] in
  let g := mkGenerator left_modem 1 GCreated in
  receive left_modem 1 w = (Ok g, w) /\
  respond (isOpen_request left_modem 1) (host w) =
    (Ok (VBool false), [Raise (TransportError "Too many open channels")]) /\
  (respond (open_request left_modem 1)
           [Raise (TransportError "Too many open channels")]).1 <> Ok VNone /\
  issued_since w (drive [ANext; AClose] g w).2 =
    [isOpen_request left_modem 1; open_request left_modem 1] /\
  feed (drive [ANext; AClose] g w).2 = feed w.
Proof.
  cbn zeta. split; [reflexivity|]. split; [vm_compute; reflexivity|].
  split; [vm_compute; discriminate|].
  destruct (receive_open_failure left_modem 1
              (world [Ok (VBool false);
                      Raise (TransportError "Too many open channels")]
                     [Event [VBytes "left"; VInt 1; VInt 7; VNone; VInt 3]])
              _ _ [Raise (TransportError "Too many open channels")]
              eq_refl ltac:(vm_compute; reflexivity)
              ltac:(vm_compute; discriminate)) as (e & _ & Hrun).
  rewrite (Hrun [AClose]). split; vm_compute; reflexivity.
Defined.


End OnScript.

End FurtherRuns.

(** * Runs on the host that loses the answer of the open call *)

Module LossyRuns.
#[local] Existing Instance Lossy.computer.

(** C1 as stated fails when the open call is sent and raises: the status
    query answers false, the open call is sent and takes effect on the
    host, its answer is lost, and the first advance raises before the
    [try] block.  The generator is finished, and whatever the consumer
    does afterwards the log holds the status query and the open call
    only: no close call is ever sent and the channel stays open. *)
Lemma receive_open_sent_never_closed :
  let w := Lossy.world (inbound Sample.mixed) [] in
  let g := mkGenerator Sample.left_modem 1 GCreated in
  let run := drive [ANext; AClose; ANext; AThrow (Foreign "KeyboardInterrupt")] g w in
  receive Sample.left_modem 1 w = (Ok g, w) /\
  (gen_next g w).1.1 = Raise (TransportError "reply lost") /\
  gen_state run.1.2 = GFinished /\
  log run.2 = [isOpen_request Sample.left_modem 1;
               open_request Sample.left_modem 1] /\
  (close_request Sample.left_modem 1 ∉ log (run.2)) /\
  Sample.is_open "left" 1 (host run.2) = true.
Proof.
  cbn zeta. split; [reflexivity|].
  split; [vm_compute; reflexivity|]. split; [vm_compute; reflexivity|].
  assert (Hlog : log (drive [ANext; AClose; ANext; AThrow (Foreign "KeyboardInterrupt")]
                        (mkGenerator Sample.left_modem 1 GCreated)
                        (Lossy.world (inbound Sample.mixed) [])).2 =
                 [isOpen_request Sample.left_modem 1;
                  open_request Sample.left_modem 1])
    by (vm_compute; reflexivity).
  split; [exact Hlog|]. split; [|vm_compute; reflexivity].
  rewrite Hlog. intros Hin.
  apply elem_of_cons in Hin as [Heq|Hin]; [vm_compute in Heq; discriminate|].
  apply list_elem_of_singleton in Hin. vm_compute in Hin. discriminate.
Qed.

End LossyRuns.

(** * Runs of the typed operations *)

Module OperationRuns.
#[local] Existing Instance Sample.computer.
#[local] Existing Instance SampleExtern.extractors.

(** The furnace behind the wired modem at the back: its kind is
    registered with the inventory class, and [size()] and [pullItems]
    with two of its four arguments given send one request each. *)
Lemma operations_single_request_witness :
  let w := Sample.world [] [] in
  let furnace :=
    construct CCInventory "peripheral.call"
      [VBytes "back"; VBytes "callRemote"; VBytes "furnace_0"] in
  TYPE_MAP w !! "minecraft:furnace" = Some CCInventory /\
  provides CCInventory (op_group Inventory_size) = true /\
  log (invoke Inventory_size furnace w).2 =
    [mkRequest "return peripheral.call(...)"
       [VBytes "back"; VBytes "callRemote"; VBytes "furnace_0"; VBytes "size"]] /\
  log (invoke (Inventory_pullItems "chest_1" 1 None (Some 2)) furnace w).2 =
    [mkRequest "return peripheral.call(...)"
       [VBytes "back"; VBytes "callRemote"; VBytes "furnace_0";
        VBytes "pullItems"; VBytes "chest_1"; VInt 1; VNone; VInt 2]].
Proof.
  cbn zeta. split; [vm_compute; reflexivity|]. split; [reflexivity|].
  destruct (operations_single_request "minecraft:furnace" CCInventory
              "peripheral.call"
              [VBytes "back"; VBytes "callRemote"; VBytes "furnace_0"]
              (Sample.world [] []) ltac:(vm_compute; reflexivity))
    as (_ & _ & _ & _ & Hops).
  split.
  - rewrite (Hops Inventory_size (Sample.world [] []) eq_refl).
    vm_compute. reflexivity.
  - rewrite (Hops (Inventory_pullItems "chest_1" 1 None (Some 2))
               (Sample.world [] []) eq_refl).
    vm_compute. reflexivity.
Defined.

End OperationRuns.
